(** * TTK_StatTestIA: the dashboard script [app.py], embedded and verified

    The script is a Streamlit page: every user interaction re-runs it from
    the top.  One run is modelled as a computation in a small monad that
    threads the session state and the list of elements put on the page, and
    that ends normally, with an uncaught Python exception, or with
    [st.stop()].

    Python floats are IEEE 754 binary64 numbers ([spec_float] at precision
    53, maximal exponent 1024); comparisons are the IEEE ones ([SFltb]) and
    are related below to the order of the real numbers the floats denote.
    pandas, scipy, scikit-learn and joblib are outside the script: their
    routines are the fields of a record [Lib], and every theorem holds for
    all of them. *)

From Stdlib Require Import ZArith List String Ascii Bool Lia Lra Reals.
From Stdlib Require Import SpecFloat DecimalString.
Import ListNotations.

Local Open Scope Z_scope.
Local Open Scope string_scope.
Local Set Warnings "-register-all".

(* ===================================================================== *)
(** ** Python floats *)
(* ===================================================================== *)

Module PyFloat.

Definition prec : Z := 53.
Definition emax : Z := 1024.

(** A float is a Python float when it is a binary64 number. *)
Definition is_float64 (f : spec_float) : bool := valid_binary prec emax f.

(** [float(n)] for an integer [n], rounded to nearest even. *)
Definition float_of_Z (n : Z) : spec_float := binary_normalize prec emax n 0 false.

(** The float a decimal literal [n/d] denotes: the binary64 number nearest
    to the quotient (the division of two exact integers rounds once). *)
Definition float_lit (n d : Z) : spec_float :=
  SFdiv prec emax (float_of_Z n) (float_of_Z d).

Definition lt (a b : spec_float) : bool := SFltb a b.
Definition gt (a b : spec_float) : bool := SFltb b a.
Definition mul (a b : spec_float) : spec_float := SFmul prec emax a b.
Definition sub (a b : spec_float) : spec_float := SFsub prec emax a b.
Definition neg (a : spec_float) : spec_float := SFopp a.

(** *** Fixed-point formatting: [f"{x:.kf}"] *)

Definition round_half_even (num den : Z) : Z :=
  let q := num / den in
  match 2 * (num mod den) ?= den with
  | Lt => q
  | Gt => q + 1
  | Eq => if Z.even q then q else q + 1
  end.

(** The integer nearest to [m * 2^e * 10^k], ties to even. *)
Definition scaled_decimal (k : nat) (m : positive) (e : Z) : Z :=
  let n := Zpos m * 10 ^ Z.of_nat k in
  match e with
  | Zneg p => round_half_even n (2 ^ Zpos p)
  | _ => n * 2 ^ e
  end.

Definition decimal (n : Z) : string := NilZero.string_of_uint (N.to_uint (Z.to_N n)).

Fixpoint zeros (n : nat) : string :=
  match n with
  | O => ""
  | S n' => "0" ++ zeros n'
  end.

(** Puts the decimal point [k] digits from the right, padding with zeros
    so that at least one digit stands before it. *)
Definition place_point (k : nat) (digits : string) : string :=
  let padded := zeros (S k - String.length digits) ++ digits in
  let i := (String.length padded - k)%nat in
  substring 0 i padded ++ "." ++ substring i k padded.

Definition sign (s : bool) : string := if s then "-" else "".

Definition format_fixed (k : nat) (f : spec_float) : string :=
  match f with
  | S754_nan => "nan"
  | S754_infinity s => sign s ++ "inf"
  | S754_zero s => sign s ++ place_point k "0"
  | S754_finite s m e => sign s ++ place_point k (decimal (scaled_decimal k m e))
  end.

End PyFloat.

(* ===================================================================== *)
(** ** Python values, dictionaries and exceptions *)
(* ===================================================================== *)

Module Py.

(** Values that travel through the script.  A dictionary keeps the order
    in which its keys were inserted, as Python's does.  [PObj] stands for
    an object of a library (the classifier, a label encoder). *)
Inductive pyval : Type :=
| PNone
| PBool (b : bool)
| PInt (z : Z)
| PFloat (f : spec_float)
| PStr (s : string)
| PList (l : list pyval)
| PDict (d : list (string * pyval))
| PObj (name : string).

Definition dict (A : Type) : Type := list (string * A).

(** [d.get(k)] *)
Fixpoint lookup {A} (k : string) (d : dict A) : option A :=
  match d with
  | [] => None
  | (k', v) :: d' => if String.eqb k k' then Some v else lookup k d'
  end.

(** [d.get(k, dflt)] *)
Definition get {A} (k : string) (dflt : A) (d : dict A) : A :=
  match lookup k d with
  | Some v => v
  | None => dflt
  end.

(** [d[k] = v]: an existing key keeps its place, a new one goes last. *)
Fixpoint set {A} (k : string) (v : A) (d : dict A) : dict A :=
  match d with
  | [] => [(k, v)]
  | (k', v') :: d' => if String.eqb k k' then (k, v) :: d' else (k', v') :: set k v d'
  end.

Definition keys {A} (d : dict A) : list string := map fst d.

(** [k in d] *)
Definition mem {A} (k : string) (d : dict A) : bool :=
  match lookup k d with
  | Some _ => true
  | None => false
  end.

(** [v == "s"] for a string literal [s] *)
Definition eq_str (v : pyval) (s : string) : bool :=
  match v with
  | PStr t => String.eqb t s
  | _ => false
  end.

(** Two values that print alike: the same kind and the same content. *)
Fixpoint same (a b : pyval) : bool :=
  match a, b with
  | PNone, PNone => true
  | PBool x, PBool y => Bool.eqb x y
  | PInt x, PInt y => Z.eqb x y
  | PFloat x, PFloat y =>
      match x, y with
      | S754_zero s, S754_zero t => Bool.eqb s t
      | S754_infinity s, S754_infinity t => Bool.eqb s t
      | S754_nan, S754_nan => true
      | S754_finite s m e, S754_finite t n f => Bool.eqb s t && Pos.eqb m n && Z.eqb e f
      | _, _ => false
      end
  | PStr x, PStr y => String.eqb x y
  | PList l, PList l' =>
      (fix all (l l' : list pyval) : bool :=
         match l, l' with
         | [], [] => true
         | x :: t, y :: t' => same x y && all t t'
         | _, _ => false
         end) l l'
  | PDict d, PDict d' =>
      (fix all (d d' : list (string * pyval)) : bool :=
         match d, d' with
         | [], [] => true
         | (k, x) :: t, (k', y) :: t' => String.eqb k k' && same x y && all t t'
         | _, _ => false
         end) d d'
  | PObj x, PObj y => String.eqb x y
  | _, _ => false
  end.

(** The elements of a value used as a list of options. *)
Definition elements (v : pyval) : list pyval :=
  match v with
  | PList l => l
  | _ => []
  end.

(** The classes of exception the script can meet; all of them derive from
    [Exception], so [except Exception] catches every one. *)
Inductive exn_class : Type :=
| FileNotFoundError
| KeyError
| IndexError
| TypeError
| ValueError
| DuplicateError
| StreamlitMixedNumericTypesError
| StreamlitValueBelowMinError
| StreamlitValueAboveMaxError
| StreamlitJSNumberBoundsError
| StreamlitDuplicateElementId
| OtherError.

Record exn : Type := mkexn { exn_class_of : exn_class; message : string }.

Definition is_FileNotFoundError (e : exn) : bool :=
  match exn_class_of e with
  | FileNotFoundError => true
  | _ => false
  end.

(** How a call into a library ends: with a value or with an exception. *)
Inductive result (A : Type) : Type :=
| Ok (a : A)
| Fail (e : exn).
Arguments Ok {A} a.
Arguments Fail {A} e.

(** How a piece of the script ends: with a value, with an exception, or
    with the control-flow signal of [st.stop()], which is not an
    [Exception]. *)
Inductive outcome (A : Type) : Type :=
| Ret (a : A)
| Raise (e : exn)
| Stop.
Arguments Ret {A} a.
Arguments Raise {A} e.
Arguments Stop {A}.

End Py.
Import Py.

(* ===================================================================== *)
(** ** Tables *)
(* ===================================================================== *)

Module Table.

(** A column: whether its dtype is numeric, and its cells. *)
Record series : Type := mkseries { numeric : bool; cells : list pyval }.

(** A DataFrame: named columns in order. *)
Definition dataframe : Type := list (string * series).

(** [df.columns] *)
Definition columns (df : dataframe) : list string := map fst df.

(** [df.select_dtypes(include=np.number).columns] *)
Definition numeric_columns (df : dataframe) : list string :=
  map fst (filter (fun c => numeric (snd c)) df).

(** [df.head()]: the first five rows. *)
Definition head (df : dataframe) : dataframe :=
  map (fun c => (fst c, mkseries (numeric (snd c)) (firstn 5 (cells (snd c))))) df.

(** [df[name]] for a name among the columns. *)
Definition column (name : string) (df : dataframe) : option series := Py.lookup name df.

(** An uploaded file. *)
Record upload : Type := mkupload { name : string; content : string }.

(** [s.endswith(suffix)] *)
Definition endswith (s suffix : string) : bool :=
  let n := String.length s in
  let k := String.length suffix in
  (k <=? n)%nat && String.eqb (substring (n - k) k s) suffix.

End Table.
Import Table.

(* ===================================================================== *)
(** ** The page: elements, user input and the monad of one run *)
(* ===================================================================== *)

Module St.

(** A figure is recorded as the call that builds it. *)
Inductive figure : Type :=
| Histogram (x : pyval) (nbins : Z) (color title : string)
| Box (y : pyval) (color title : string)
| Scatter (x y : pyval) (color title : string)
| Pie (counts : list (pyval * Z)) (names : pyval) (values title : string)
| Gauge (mode : string) (value : spec_float) (suffix : string) (low high : Z)
        (bar : string) (steps : list (Z * Z * string)) (title : string).

(** What a run puts on the page, one element per [st.*] call. *)
Inductive element : Type :=
| PageConfig (title icon layout : string)
| Markdown (html : string)
| SidebarTitle (s : string)
| SidebarRadio (label : string) (options : list string)
| Header (s : string)
| Write (s : string)
| Success (s : string)
| Info (s : string)
| Warning (s : string)
| Error (s : string)
| FileUploader (label : string) (types : list string)
| DataframeView (df : dataframe)
| Selectbox (label : string) (options : list pyval)
| ColorPicker (label value : string)
| Columns (n : Z)
| Button (label : string)
| NumberInput (label : string) (min_value max_value value : pyval)
| PlotlyChart (fig : figure).

(** What the user has done on the page when the run starts: widgets are
    found by their label. *)
Record inputs : Type := mkinputs {
  radio : nat;
  uploaded : option upload;
  selected : string -> nat;
  color : option string;
  clicked : string -> bool;
  entered : string -> option pyval
}.

(** [st.session_state] holds at most the key [df]; the page grows. *)
Record world : Type := mkworld {
  session_df : option dataframe;
  page : list element
}.

Definition St (A : Type) : Type := world -> outcome A * world.

Definition ret {A} (a : A) : St A := fun w => (Ret a, w).

Definition bind {A B} (c : St A) (k : A -> St B) : St B :=
  fun w =>
    match c w with
    | (Ret a, w') => k a w'
    | (Raise e, w') => (Raise e, w')
    | (Stop, w') => (Stop, w')
    end.

(** A library call: the world is untouched. *)
Definition call {A} (r : result A) : St A :=
  fun w =>
    match r with
    | Ok a => (Ret a, w)
    | Fail e => (Raise e, w)
    end.

Definition raise {A} (e : exn) : St A := fun w => (Raise e, w).

(** [st.stop()] *)
Definition stop {A} : St A := fun w => (Stop, w).

(** [try: body  except C as e: handler e], where [catches] tells the
    instances of the class [C]; any other exception goes on. *)
Definition try_catch {A} (catches : exn -> bool) (body : St A) (handler : exn -> St A) : St A :=
  fun w =>
    match body w with
    | (Raise e, w') => if catches e then handler e w' else (Raise e, w')
    | r => r
    end.

(** [try: body  except Exception as e: handler e] *)
Definition try_except {A} (body : St A) (handler : exn -> St A) : St A :=
  try_catch (fun _ => true) body handler.

Definition emit (el : element) : St unit :=
  fun w => (Ret tt, mkworld (session_df w) (page w ++ [el])).

(** [st.session_state.get("df", None)] *)
Definition session_get : St (option dataframe) := fun w => (Ret (session_df w), w).

(** [st.session_state["df"] = df] *)
Definition session_set (df : dataframe) : St unit :=
  fun w => (Ret tt, mkworld (Some df) (page w)).

(** [for x in xs: body x], threading an accumulator. *)
Fixpoint for_each {A B} (xs : list A) (acc : B) (body : A -> B -> St B) : St B :=
  match xs with
  | [] => ret acc
  | x :: xs' => bind (body x acc) (fun acc' => for_each xs' acc' body)
  end.

End St.
Import St.

Declare Scope st_scope.
Delimit Scope st_scope with st.
Notation "x <- c ;; k" := (St.bind c (fun x => k))
  (at level 61, c at next level, right associativity) : st_scope.
Notation "c ;; k" := (St.bind c (fun _ => k))
  (at level 61, right associativity) : st_scope.
Local Open Scope st_scope.

(* ===================================================================== *)
(** ** The libraries the script calls *)
(* ===================================================================== *)

Module Libs.

(** The dictionary stored in [model.pkl]; a key may be missing. *)
Record payload : Type := mkpayload {
  payload_model : option pyval;
  payload_encoders : option (dict pyval);
  payload_features : option (list string);
  payload_stats : option (dict (dict pyval))
}.

(** Each field is the result of one call of the script into a library:
    joblib ([joblib_load]), pandas ([read_csv] to [value_counts]), scipy
    (the four tests, each giving statistic and p-value), scikit-learn
    ([transform], [predict_proba], the latter read at [[0][1]]) and
    Python's [str] on values whose text the model does not build itself
    ([repr]). *)
Record Lib : Type := mkLib {
  joblib_load : string -> result payload;
  read_csv : upload -> result dataframe;
  read_excel : upload -> result dataframe;
  corr : dataframe -> pyval -> pyval -> result spec_float;
  quantile : dataframe -> pyval -> result (spec_float * spec_float);
  median : dataframe -> pyval -> result spec_float;
  value_counts : dataframe -> pyval -> result (list (pyval * Z));
  mannwhitneyu : dataframe -> pyval -> pyval -> result (spec_float * spec_float);
  wilcoxon : dataframe -> pyval -> pyval -> result (spec_float * spec_float);
  kruskal : dataframe -> pyval -> pyval -> result (spec_float * spec_float);
  spearmanr : dataframe -> pyval -> pyval -> result (spec_float * spec_float);
  transform : pyval -> pyval -> result pyval;
  predict_proba : pyval -> dict pyval -> result spec_float;
  repr : pyval -> string
}.

End Libs.
Import Libs.

(* ===================================================================== *)
(** ** pandas' [Series.corr] *)
(* ===================================================================== *)

(** [df[x].corr(df[y])] with the default method turns both columns into
    arrays of floats, drops the rows where either is NaN and returns
    [numpy.corrcoef(a, b)[0, 1]]; numpy in turn takes the covariance matrix
    with one degree of freedom less than the sample, divides its entry by
    the two standard deviations one after the other and clips the quotient
    to [[-1, 1]].  Every operation is the binary64 one. *)
Module Pandas.

Import PyFloat.

Definition add (a b : spec_float) : spec_float := SFadd prec emax a b.
Definition div (a b : spec_float) : spec_float := SFdiv prec emax a b.
Definition sqrt (a : spec_float) : spec_float := SFsqrt prec emax a.

(** [a.sum()], from the left. *)
Definition total (l : list spec_float) : spec_float :=
  match l with
  | [] => S754_zero false
  | x :: t => fold_left add t x
  end.

Definition mean (l : list spec_float) : spec_float :=
  div (total l) (float_of_Z (Z.of_nat (List.length l))).

(** [X -= avg] *)
Definition centred (l : list spec_float) : list spec_float :=
  map (fun x => sub x (mean l)) l.

Definition dot (a b : list spec_float) : spec_float :=
  total (map (fun xy => mul (fst xy) (snd xy)) (combine a b)).

(** One entry of [numpy.cov(a, b)]: [c *= 1 / (n - 1)]. *)
Definition cov (a b : list spec_float) : spec_float :=
  let fact := Z.max 0 (Z.of_nat (List.length a) - 1) in
  mul (dot (centred a) (centred b)) (div (float_of_Z 1) (float_of_Z fact)).

(** [numpy.clip(c, -1, 1)]; NaN stays. *)
Definition clip (c : spec_float) : spec_float :=
  if lt c (float_of_Z (-1)) then float_of_Z (-1)
  else if lt (float_of_Z 1) c then float_of_Z 1
  else c.

(** [numpy.corrcoef(a, b)[0, 1]] *)
Definition corrcoef (a b : list spec_float) : spec_float :=
  clip (div (div (cov a b) (sqrt (cov a a))) (sqrt (cov b b))).

(** A cell as a float. *)
Definition to_float (v : pyval) : result spec_float :=
  match v with
  | PInt z => Ok (float_of_Z z)
  | PBool b => Ok (float_of_Z (if b then 1 else 0))
  | PFloat f => Ok f
  | PNone => Ok S754_nan
  | _ => Fail (mkexn ValueError "could not convert string to float")
  end.

Fixpoint to_floats (l : list pyval) : result (list spec_float) :=
  match l with
  | [] => Ok []
  | v :: t =>
      match to_float v, to_floats t with
      | Ok f, Ok fs => Ok (f :: fs)
      | Fail e, _ => Fail e
      | _, Fail e => Fail e
      end
  end.

Definition isna (f : spec_float) : bool :=
  match f with
  | S754_nan => true
  | _ => false
  end.

(** The rows where both columns hold a number. *)
Definition valid (a b : list spec_float) : list (spec_float * spec_float) :=
  filter (fun xy => negb (isna (fst xy)) && negb (isna (snd xy))) (combine a b).

(** [df[name]] *)
Definition getitem (df : dataframe) (name : pyval) : result series :=
  match name with
  | PStr n =>
      match column n df with
      | Some s => Ok s
      | None => Fail (mkexn KeyError ("'" ++ n ++ "'"))
      end
  | _ => Fail (mkexn KeyError "None")
  end.

(** [df[x].corr(df[y])] *)
Definition series_corr (df : dataframe) (x y : pyval) : result spec_float :=
  match getitem df x, getitem df y with
  | Ok sx, Ok sy =>
      match to_floats (cells sx), to_floats (cells sy) with
      | Ok a, Ok b =>
          let rows := valid a b in
          match rows with
          | [] => Ok S754_nan
          | _ => Ok (corrcoef (map fst rows) (map snd rows))
          end
      | Fail e, _ => Fail e
      | _, Fail e => Fail e
      end
  | Fail e, _ => Fail e
  | _, Fail e => Fail e
  end.

(** The library [L] with pandas' own correlation. *)
Definition with_series_corr (L : Lib) : Lib :=
  mkLib (joblib_load L) (read_csv L) (read_excel L) series_corr (quantile L) (median L)
        (value_counts L) (mannwhitneyu L) (wilcoxon L) (kruskal L) (spearmanr L)
        (transform L) (predict_proba L) (repr L).

End Pandas.

(* ===================================================================== *)
(** ** What [st.number_input] checks *)
(* ===================================================================== *)

Module Widget.

Import PyFloat.

(** [isinstance(a, (numbers.Integral, type(None), str))] *)
Definition integral_or_none (a : pyval) : bool :=
  match a with
  | PInt _ | PBool _ | PNone | PStr _ => true
  | _ => false
  end.

(** [isinstance(a, (float, type(None), str))] *)
Definition float_or_none (a : pyval) : bool :=
  match a with
  | PFloat _ | PNone | PStr _ => true
  | _ => false
  end.

(** The widget works on integers when every argument is an integer or
    None and one of them is an integer, and on floats otherwise. *)
Definition on_integers (args : list pyval) : bool :=
  forallb integral_or_none args && negb (forallb float_or_none args).

(** The arguments are neither all integers nor all floats. *)
Definition mixed (args : list pyval) : bool :=
  negb (forallb integral_or_none args) && negb (forallb float_or_none args).

(** [value == "min"], the widget's own default: the minimum, or zero. *)
Definition default_value (minv maxv value : pyval) : pyval :=
  if eq_str value "min" then
    match minv with
    | PNone => if on_integers [minv; maxv; value] then PInt 0 else PFloat (S754_zero false)
    | _ => minv
    end
  else value.

Definition is_string (a : pyval) : bool :=
  match a with
  | PStr _ => true
  | _ => false
  end.

Definition as_int (a : pyval) : option Z :=
  match a with
  | PInt z => Some z
  | PBool b => Some (if b then 1 else 0)
  | _ => None
  end.

Definition as_float (a : pyval) : option spec_float :=
  match a with
  | PFloat f => Some f
  | _ => None
  end.

(** [a < b] for two arguments of the widget's kind; None bounds nothing. *)
Definition less (integers : bool) (a b : pyval) : bool :=
  if integers then
    match as_int a, as_int b with
    | Some x, Some y => (x <? y)%Z
    | _, _ => false
    end
  else
    match as_float a, as_float b with
    | Some x, Some y => lt x y
    | _, _ => false
    end.

(** The largest integer and the largest float the browser is sent. *)
Definition MAX_SAFE_INTEGER : Z := 2 ^ 53 - 1.
Definition MAX_VALUE : spec_float := float_of_Z (1797 * 10 ^ 305).

(** An argument the browser cannot hold. *)
Definition out_of_js_bounds (integers : bool) (a : pyval) : bool :=
  if integers then
    match as_int a with
    | Some z => (z <? - MAX_SAFE_INTEGER)%Z || (MAX_SAFE_INTEGER <? z)%Z
    | None => false
    end
  else
    match as_float a with
    | Some f => lt f (neg MAX_VALUE) || lt MAX_VALUE f
    | None => false
    end.

(** The exception [st.number_input(label, min_value, max_value, value)]
    raises on its arguments, if any, in the order of its checks: the kinds
    of the arguments, a string that is no number, the value against the two
    bounds, the three numbers against what the browser holds.  The message
    keeps the fixed part of Streamlit's text. *)
Definition argument_error (minv maxv value : pyval) : option exn :=
  let args := [minv; maxv; value] in
  if mixed args then
    Some (mkexn StreamlitMixedNumericTypesError "All numerical arguments must be of the same type.")
  else
    let integers := on_integers args in
    let v := default_value minv maxv value in
    if existsb is_string [minv; maxv; v] then
      Some (mkexn OtherError "The arguments of a number input must be numbers.")
    else if less integers v minv then
      Some (mkexn StreamlitValueBelowMinError "The `value` is less than the `min_value`.")
    else if less integers maxv v then
      Some (mkexn StreamlitValueAboveMaxError "The `value` is greater than the `max_value`.")
    else if existsb (out_of_js_bounds integers) [minv; maxv; v] then
      Some (mkexn StreamlitJSNumberBoundsError "The number is out of the bounds of a JavaScript number.")
    else None.

(** A number the user can have typed into the widget: one of its kind,
    within its bounds. *)
Definition typeable (minv maxv value typed : pyval) : bool :=
  let integers := on_integers [minv; maxv; value] in
  match typed with
  | PInt _ => integers
  | PFloat _ => negb integers
  | _ => false
  end
  && negb (less integers typed minv) && negb (less integers maxv typed)
  && negb (out_of_js_bounds integers typed).

(** What the widget returns: the number typed when there is one, else the
    value it was created with. *)
Definition returned (minv maxv value : pyval) (typed : option pyval) : pyval :=
  match typed with
  | Some v => if typeable minv maxv value v then v else default_value minv maxv value
  | None => default_value minv maxv value
  end.

(** A number input already on the page with the same label and the same
    arguments: Streamlit gives both the same identity. *)
Definition twin (label : string) (minv maxv value : pyval) (el : element) : bool :=
  match el with
  | NumberInput l a b c => String.eqb label l && same minv a && same maxv b && same value c
  | _ => false
  end.

End Widget.

(* ===================================================================== *)
(** ** The script *)
(* ===================================================================== *)

Module App.

Import PyFloat.

Definition PRIMARY : string := "#0E6BA8".
Definition ACCENT : string := "#DFF6FF".
Definition MODEL_FILE : string := "model.pkl".

(** The double-quote character, for the HTML of the home screen. *)
Definition dq : string := String (ascii_of_nat 34) EmptyString.

Definition style : string :=
"
    <style>
    body { background: linear-gradient(180deg, #ffffff, " ++ ACCENT ++ "); }
    .title { text-align:center; font-size:46px; color:" ++ PRIMARY ++ "; font-weight:800; margin-top:25px; }
    .subtitle { text-align:center; color:#333; font-size:20px; margin-bottom:25px; }
    .heart {
      display:inline-block;
      font-size:70px;
      color:" ++ PRIMARY ++ ";
      animation: beat 1s infinite;
      transform-origin: center;
      margin-bottom: 10px;
    }
    @keyframes beat {
      0% { transform: scale(1); }
      25% { transform: scale(1.12); }
      50% { transform: scale(1); }
      75% { transform: scale(1.12); }
      100% { transform: scale(1); }
    }
    .big-btn {
      background-color:" ++ PRIMARY ++ ";
      color:white;
      padding:18px 40px;
      border-radius:12px;
      font-weight:600;
      text-decoration:none;
      border:none;
      font-size:18px;
      transition: 0.3s ease;
    }
    .big-btn:hover { background-color:#0b5f91; transform:scale(1.08); }
    .button-container {
      display:flex; justify-content:center; gap:40px; margin-top:35px;
    }
    </style>
".

(** The globals the model loader leaves behind. *)
Record bundle : Type := mkbundle {
  model_loaded : bool;
  model : pyval;
  encoders : dict pyval;
  FEATURES : list string;
  STATS : dict (dict pyval)
}.

(** [payload[key]]: a missing key raises [KeyError]. *)
Definition subscript {A} (key : string) (field : option A) : St A :=
  match field with
  | Some v => ret v
  | None => raise (mkexn KeyError ("'" ++ key ++ "'"))
  end.

Definition menu_options : list string :=
  ["🏠 Accueil"; "📂 Importer"; "📊 Visualisations"; "🧪 Tests"; "🔮 Prédiction (IA)"].

Definition chart_options : list string :=
  ["Histogramme"; "Boîte à moustaches"; "Nuage de points"; "Diagramme circulaire"].

Definition test_options : list string :=
  ["Mann-Whitney"; "Wilcoxon"; "Kruskal-Wallis"; "Spearman"].

(** The three sentences of the scatter plot. *)
Definition positive_sentence (x y : string) : string :=
  "Plus " ++ x ++ " augmente, plus " ++ y ++ " tend à augmenter. On observe une corrélation positive entre ces deux variables.".

Definition negative_sentence (x y : string) : string :=
  "Lorsque " ++ x ++ " augmente, " ++ y ++ " diminue. Il existe une corrélation négative marquée entre les deux variables.".

Definition inconclusive_sentence (x y : string) : string :=
  "Aucune relation claire n’apparaît entre **" ++ x ++ "** et **" ++ y ++ "**, les points semblent dispersés sans tendance nette.".

(** Lines 144-149: the interpretation of a correlation. *)
Definition scatter_interpretation (x y : string) (correlation : spec_float) : string :=
  if gt correlation (float_lit 5 10) then positive_sentence x y
  else if lt correlation (neg (float_lit 5 10)) then negative_sentence x y
  else inconclusive_sentence x y.

(** Lines 197-200: the verdict on a p-value. *)
Definition verdict (test interpretation : string) (p : spec_float) : element :=
  if lt p (float_lit 5 100)
  then Info ("✅ Résultat significatif : " ++ interpretation ++ ". Il existe une différence ou une relation notable.")
  else Warning ("⚠️ Pas de différence significative détectée selon " ++ test ++ ".").

(** Lines 243-248: the risk band of a percentage. *)
Definition risk (prob : spec_float) : element :=
  if lt prob (float_of_Z 30) then Success ("Faible risque (" ++ format_fixed 1 prob ++ "%)")
  else if lt prob (float_of_Z 70) then Warning ("Risque modéré (" ++ format_fixed 1 prob ++ "%)")
  else Error ("Risque élevé (" ++ format_fixed 1 prob ++ "%)").

(** [counts.iloc[0]["Valeurs"]]: the first row holds the value and its
    count in one Series, so beside a float the count is a float too. *)
Definition first_row_count (top : pyval) (n : Z) : pyval :=
  match top with
  | PFloat _ => PFloat (float_of_Z n)
  | _ => PInt n
  end.

Definition gauge (prob : spec_float) : figure :=
  Gauge "gauge+number" prob "%" 0 100 PRIMARY
        [(0, 30, "#BEE6FF"); (30, 70, "#FDDC6B"); (70, 100, "#FF9A9A")]
        "Probabilité de diabète".

Section Run.

Variable L : Lib.
Variable inp : inputs.

(** *** Widgets *)

Definition sidebar_radio (label : string) (options : list string) : St string :=
  emit (SidebarRadio label options) ;;
  ret (nth (radio inp) options "").

(** [st.selectbox]: the option the user picked, [None] without options. *)
Definition selectbox (label : string) (options : list pyval) : St pyval :=
  emit (Selectbox label options) ;;
  ret (nth (selected inp label) options PNone).

Definition color_picker (label value : string) : St string :=
  emit (ColorPicker label value) ;;
  ret (match color inp with Some c => c | None => value end).

Definition button (label : string) : St bool :=
  emit (Button label) ;;
  ret (clicked inp label).

Definition file_uploader (label : string) (types : list string) : St (option upload) :=
  emit (FileUploader label types) ;;
  ret (uploaded inp).

(** [st.number_input(label, min_value, max_value, value)]: the widget
    refuses arguments of mixed kinds, a value outside the bounds and numbers
    the browser cannot hold, and it refuses to be created twice; otherwise
    it returns the number the user typed, else [value]. *)
Definition number_input (label : string) (minv maxv value : pyval) : St pyval :=
  match Widget.argument_error minv maxv value with
  | Some e => raise e
  | None =>
      fun w =>
        if existsb (Widget.twin label minv maxv value) (page w)
        then (Raise (mkexn StreamlitDuplicateElementId
                           "There are multiple `number_input` elements with the same auto-generated ID."), w)
        else (emit (NumberInput label minv maxv value) ;;
              ret (Widget.returned minv maxv value (entered inp label))) w
  end.

(** [f"{v}"] *)
Definition str (v : pyval) : string :=
  match v with
  | PStr s => s
  | PNone => "None"
  | PBool true => "True"
  | PBool false => "False"
  | PInt z => (if (z <? 0)%Z then "-" else "") ++ decimal (Z.abs z)
  | _ => repr L v
  end.

(** *** Lines 59-72: the model loader *)

Definition load_model : St bundle :=
  try_catch is_FileNotFoundError
    (model_payload <- call (joblib_load L MODEL_FILE) ;;
     model <- subscript "model" (payload_model model_payload) ;;
     let encoders := match payload_encoders model_payload with Some e => e | None => [] end in
     FEATURES <- subscript "features" (payload_features model_payload) ;;
     STATS <- subscript "stats" (payload_stats model_payload) ;;
     ret (mkbundle true model encoders FEATURES STATS))
    (fun _ => ret (mkbundle false PNone [] [] [])).


(** *** Lines 83-98: the home screen *)

Definition home_screen : St unit :=
  emit (Markdown "<div style='text-align:center'>") ;;
  emit (Markdown "<div class='heart'>💙</div>") ;;
  emit (Markdown "<div class='title'>TTK_StatTestIA</div>") ;;
  emit (Markdown "<div class='subtitle'>Explorez vos données, testez vos hypothèses et prédisez le risque de diabète grâce à une IA légère et intuitive.</div>") ;;
  emit (Markdown ("
    <div class=" ++ dq ++ "button-container" ++ dq ++ ">
        <button class=" ++ dq ++ "big-btn" ++ dq ++ ">📂 Importer des données</button>
        <button class=" ++ dq ++ "big-btn" ++ dq ++ ">📊 Visualisations</button>
        <button class=" ++ dq ++ "big-btn" ++ dq ++ ">🧪 Tests</button>
        <button class=" ++ dq ++ "big-btn" ++ dq ++ ">🔮 Prédiction IA</button>
    </div>
    ")) ;;
  emit (Markdown "<div style='text-align:center; margin-top:50px; color:#444;'>Bienvenue sur TTK_StatTestIA, votre plateforme d’analyse statistique interactive et de prédiction assistée par intelligence artificielle.</div>").

(** *** Lines 103-110: the import screen *)

Definition import_screen : St unit :=
  emit (Header "📂 Importation des données") ;;
  uploaded_file <- file_uploader "Choisissez un fichier CSV/Excel (ex : BD_DIABETE.csv)" ["csv"; "xlsx"] ;;
  match uploaded_file with
  | Some f =>
      df <- call (if endswith (name f) ".csv" then read_csv L f else read_excel L f) ;;
      session_set df ;;
      emit (Success "✅ Importation réussie.") ;;
      emit (DataframeView (head df))
  | None => ret tt
  end.

(** *** Lines 115-160: the visualisation screen *)

(** Lines 128-157: the figure and its interpretation. *)
Definition build_chart (df : dataframe) (xcol ycol chart_type : pyval) (color_choice : string)
  : St (figure * string) :=
  if eq_str chart_type "Histogramme" then
    let fig := Histogram xcol 20 color_choice ("Histogramme de " ++ str xcol) in
    ret (fig, "On observe la répartition de la variable **" ++ str xcol ++ "**. Si une barre domine, cela signifie que cette valeur est plus fréquente dans notre échantillon.")
  else if eq_str chart_type "Boîte à moustaches" then
    let fig := Box xcol color_choice ("Boîte à moustaches : " ++ str xcol) in
    qs <- call (quantile L df xcol) ;;
    let q1 := fst qs in
    let q3 := snd qs in
    let iqr := sub q3 q1 in
    med <- call (median L df xcol) ;;
    ret (fig, "La médiane de **" ++ str xcol ++ "** se situe autour de " ++ format_fixed 2 med ++ ". Les valeurs comprises entre " ++ format_fixed 2 q1 ++ " et " ++ format_fixed 2 q3 ++ " représentent la majorité des données. Des points éloignés pourraient indiquer des valeurs extrêmes.")
  else if eq_str chart_type "Nuage de points" then
    (if eq_str ycol "Aucune"
     then emit (Warning "Veuillez choisir une variable Y pour un nuage de points.") ;; stop
     else ret tt) ;;
    let fig := Scatter xcol ycol color_choice ("Nuage de points : " ++ str xcol ++ " vs " ++ str ycol) in
    correlation <- call (corr L df xcol ycol) ;;
    ret (fig, scatter_interpretation (str xcol) (str ycol) correlation)
  else
    counts <- call (value_counts L df xcol) ;;
    (if eq_str xcol "Valeurs"
     then raise (mkexn DuplicateError "Expected unique column names, got 'Valeurs' 2 times")
     else ret tt) ;;
    let fig := Pie counts xcol "Valeurs" ("Répartition de " ++ str xcol) in
    match counts with
    | (top, n) :: _ =>
        let val := first_row_count top n in
        ret (fig, "La modalité **" ++ str top ++ "** est la plus représentée (" ++ str val ++ " observations). Cela indique que cette catégorie est dominante dans l’échantillon.")
    | [] => raise (mkexn IndexError "single positional indexer is out-of-bounds")
    end.

Definition visualisation_screen : St unit :=
  emit (Header "📊 Visualisation interactive des données") ;;
  df <- session_get ;;
  match df with
  | None => emit (Warning "⚠️ Importez d'abord un fichier de données.")
  | Some df =>
      xcol <- selectbox "Variable X" (map PStr (columns df)) ;;
      ycol <- selectbox "Variable Y (optionnel)" (PStr "Aucune" :: map PStr (columns df)) ;;
      chart_type <- selectbox "Type de graphique" (map PStr chart_options) ;;
      color_choice <- color_picker "🎨 Choisissez une couleur" "#0E6BA8" ;;
      chart <- build_chart df xcol ycol chart_type color_choice ;;
      emit (PlotlyChart (fst chart)) ;;
      emit (Info ("🧠 Interprétation : " ++ snd chart))
  end.

(** *** Lines 165-202: the test screen *)

(** Lines 183-194: the routine of the chosen test and its sentence. *)
Definition run_test (df : dataframe) (test var1 var2 : pyval)
  : St (spec_float * spec_float * string) :=
  if eq_str test "Mann-Whitney" then
    r <- call (mannwhitneyu L df var1 var2) ;;
    ret (r, "Le test compare les médianes de deux groupes indépendants.")
  else if eq_str test "Wilcoxon" then
    r <- call (wilcoxon L df var1 var2) ;;
    ret (r, "Ce test vérifie si deux mesures appariées diffèrent significativement.")
  else if eq_str test "Kruskal-Wallis" then
    r <- call (kruskal L df var1 var2) ;;
    ret (r, "Ce test compare la distribution de plusieurs groupes pour voir s’ils diffèrent.")
  else
    r <- call (spearmanr L df var1 var2) ;;
    ret (r, "Il mesure la force de la relation monotone entre deux variables numériques.").

(** Lines 182-202: the body of the button. *)
Definition execute_test (df : dataframe) (test var1 var2 : pyval) : St unit :=
  try_except
    (r <- run_test df test var1 var2 ;;
     let stat := fst (fst r) in
     let p := snd (fst r) in
     let interpretation := snd r in
     emit (Success ("Statistique = " ++ format_fixed 3 stat ++ " | p-valeur = " ++ format_fixed 4 p)) ;;
     emit (verdict (str test) interpretation p))
    (fun e => emit (Error ("Erreur : " ++ message e))).

Definition tests_screen : St unit :=
  emit (Header "🧪 Tests non paramétriques") ;;
  df <- session_get ;;
  match df with
  | None => emit (Warning "Importez d'abord des données.")
  | Some df =>
      let num_cols := numeric_columns df in
      if (List.length num_cols <? 2)%nat then
        emit (Warning "Besoin d'au moins deux colonnes numériques.")
      else
        emit (Columns 2) ;;
        var1 <- selectbox "Variable A" (map PStr num_cols) ;;
        var2 <- selectbox "Variable B" (map PStr num_cols) ;;
        test <- selectbox "Choisir un test" (map PStr test_options) ;;
        pressed <- button "Exécuter le test" ;;
        if pressed then execute_test df test var1 var2 else ret tt
  end.

(** *** Lines 207-251: the prediction screen *)

(** Lines 217-222: the widget of one feature. *)
Definition feature_input (STATS : dict (dict pyval)) (feat : string) (user_input : dict pyval)
  : St (dict pyval) :=
  let info := Py.get feat [] STATS in
  if eq_str (Py.get "type" PNone info) "categorical" then
    v <- selectbox feat (elements (Py.get "classes" (PList []) info)) ;;
    ret (Py.set feat v user_input)
  else
    let minv := Py.get "min" (PInt 0) info in
    let maxv := Py.get "max" (PInt 1) info in
    let meanv := Py.get "mean" (PFloat (float_lit 5 10)) info in
    v <- number_input feat minv maxv meanv ;;
    ret (Py.set feat v user_input).

(** Lines 227-229: the encoders applied to the one-row frame. *)
Definition encode (col_le : string * pyval) (input_df : dict pyval) : St (dict pyval) :=
  let col := fst col_le in
  let le := snd col_le in
  if Py.mem col input_df then
    v <- call (transform L le (PStr (str (Py.get col PNone input_df)))) ;;
    ret (Py.set col v input_df)
  else ret input_df.

(** Lines 225-251: the body of the button. *)
Definition predict (g : bundle) (user_input : dict pyval) : St unit :=
  try_except
    (input_df <- for_each (encoders g) user_input encode ;;
     proba <- call (predict_proba L (model g) input_df) ;;
     let prob := mul proba (float_of_Z 100) in
     emit (PlotlyChart (gauge prob)) ;;
     emit (risk prob))
    (fun e => emit (Error ("Erreur : " ++ message e))).

Definition prediction_screen (g : bundle) : St unit :=
  emit (Header "🔮 Prédiction du risque de diabète") ;;
  (if negb (model_loaded g)
   then emit (Error ("Le fichier " ++ MODEL_FILE ++ " est introuvable. Exécutez d'abord train_model.py pour générer le modèle.")) ;; stop
   else ret tt) ;;
  emit (Write "### Entrez les valeurs pour prédire le risque :") ;;
  user_input <- for_each (FEATURES g) [] (feature_input (STATS g)) ;;
  pressed <- button "🔮 Prédire" ;;
  if pressed then predict g user_input else ret tt.

(** *** The whole script *)

Definition app : St unit :=
  emit (PageConfig "TTK_StatTestIA" "💙" "wide") ;;
  emit (Markdown style) ;;
  g <- load_model ;;
  emit (SidebarTitle "💙 TTK_StatTestIA") ;;
  menu <- sidebar_radio "Navigation" menu_options ;;
  if String.eqb menu "🏠 Accueil" then home_screen
  else if String.eqb menu "📂 Importer" then import_screen
  else if String.eqb menu "📊 Visualisations" then visualisation_screen
  else if String.eqb menu "🧪 Tests" then tests_screen
  else if String.eqb menu "🔮 Prédiction (IA)" then prediction_screen g
  else ret tt.

End Run.

(** One render cycle: the script runs on an empty page with the session
    state the previous cycle left. *)
Definition render (L : Lib) (inp : inputs) (session : option dataframe) : outcome unit * world :=
  app L inp (mkworld session []).

End App.
Import App.

(* ===================================================================== *)
(** ** What the floats denote, and Pearson's coefficient *)
(* ===================================================================== *)

Module Real.

Import PyFloat.
Local Open Scope R_scope.

(** The real number a finite float denotes. *)
Definition SF2R (f : spec_float) : R :=
  match f with
  | S754_finite s m e => IZR (cond_Zopp s (Zpos m)) * powerRZ 2 e
  | _ => 0
  end.

(** The same number counted in units of [2^-1074], the smallest positive
    binary64 number: an integer for every binary64 float. *)
Definition SFint (f : spec_float) : Z :=
  match f with
  | S754_finite s m e => cond_Zopp s (Zpos m * 2 ^ (e + 1074))
  | _ => 0%Z
  end.

(** Floats denote extended reals, or nothing (NaN). *)
Inductive xreal : Type :=
| XNaN
| XInf (negative : bool)
| XFin (x : R).

Definition value (f : spec_float) : xreal :=
  match f with
  | S754_nan => XNaN
  | S754_infinity s => XInf s
  | _ => XFin (SF2R f)
  end.

(** The strict order of the extended reals; nothing compares with NaN. *)
Definition xlt (a b : xreal) : Prop :=
  match a, b with
  | XNaN, _ | _, XNaN => False
  | XInf true, XInf true => False
  | XInf true, _ => True
  | _, XInf true => False
  | XInf false, _ => False
  | _, XInf false => True
  | XFin x, XFin y => x < y
  end.

(** [below f x]: the float [f] denotes something smaller than the real [x]. *)
Definition below (f : spec_float) (x : R) : Prop := xlt (value f) (XFin x).
Definition above (f : spec_float) (x : R) : Prop := xlt (XFin x) (value f).

Definition sum (l : list R) : R := fold_right Rplus 0 l.

Definition mean (l : list R) : R := sum l / INR (List.length l).

(** The sum of the products of the deviations from the means. *)
Definition codeviation (xs ys : list R) : R :=
  sum (map (fun xy => (fst xy - mean xs) * (snd xy - mean ys)) (combine xs ys)).

(** Pearson's correlation coefficient of two samples. *)
Definition pearson (xs ys : list R) : R :=
  codeviation xs ys / (sqrt (codeviation xs xs) * sqrt (codeviation ys ys)).

(** The numbers in the cells of a column. *)
Definition cell_real (v : pyval) : option R :=
  match v with
  | PInt z => Some (IZR z)
  | PFloat f => Some (SF2R f)
  | _ => None
  end.

Fixpoint reals (l : list pyval) : list R :=
  match l with
  | [] => []
  | v :: l' => match cell_real v with
               | Some x => x :: reals l'
               | None => reals l'
               end
  end.

Definition column_reals (name : string) (df : dataframe) : list R :=
  match column name df with
  | Some s => reals (cells s)
  | None => []
  end.

(** Zeros and finite numbers, as opposed to infinities and NaN. *)
Definition finite (f : spec_float) : bool :=
  match f with
  | S754_zero _ | S754_finite _ _ _ => true
  | _ => false
  end.

End Real.
Import Real.

(* ===================================================================== *)
(** ** Reading the screens *)
(* ===================================================================== *)

Module Reading.

(** The world after a run has put [els] on the page. *)
Definition shown (w : world) (els : list element) : world :=
  mkworld (session_df w) (page w ++ els).

(** What a selector returns: the entry the user picked. *)
Definition chosen (inp : inputs) (label : string) (options : list pyval) : pyval :=
  nth (selected inp label) options PNone.

(** The widgets of the test screen, once a table with two numeric columns
    is in the session. *)
Definition tests_widgets (df : dataframe) : list element :=
  [Header "🧪 Tests non paramétriques"; Columns 2;
   Selectbox "Variable A" (map PStr (numeric_columns df));
   Selectbox "Variable B" (map PStr (numeric_columns df));
   Selectbox "Choisir un test" (map PStr test_options);
   Button "Exécuter le test"].

(** The widgets of the visualisation screen, once a table is in the
    session. *)
Definition chart_widgets (df : dataframe) : list element :=
  [Header "📊 Visualisation interactive des données";
   Selectbox "Variable X" (map PStr (columns df));
   Selectbox "Variable Y (optionnel)" (PStr "Aucune" :: map PStr (columns df));
   Selectbox "Type de graphique" (map PStr chart_options);
   ColorPicker "🎨 Choisissez une couleur" "#0E6BA8"].

(** The scipy routine matching a selection of the test screen. *)
Definition routine (L : Lib) (test : pyval)
  : dataframe -> pyval -> pyval -> result (spec_float * spec_float) :=
  if eq_str test "Mann-Whitney" then mannwhitneyu L
  else if eq_str test "Wilcoxon" then wilcoxon L
  else if eq_str test "Kruskal-Wallis" then kruskal L
  else spearmanr L.

(** The canned sentence of a test. *)
Definition sentence (test : pyval) : string :=
  if eq_str test "Mann-Whitney" then "Le test compare les médianes de deux groupes indépendants."
  else if eq_str test "Wilcoxon" then "Ce test vérifie si deux mesures appariées diffèrent significativement."
  else if eq_str test "Kruskal-Wallis" then "Ce test compare la distribution de plusieurs groupes pour voir s’ils diffèrent."
  else "Il mesure la force de la relation monotone entre deux variables numériques.".

(** The parser the import screen picks for a file. *)
Definition parse (L : Lib) (f : upload) : result dataframe :=
  if endswith (name f) ".csv" then read_csv L f else read_excel L f.

(** Whether the statistics mark a feature as categorical. *)
Definition categorical (STATS : dict (dict pyval)) (feat : string) : bool :=
  eq_str (Py.get "type" PNone (Py.get feat [] STATS)) "categorical".

(** The widget the prediction screen shows for a feature. *)
Definition feature_widget (STATS : dict (dict pyval)) (feat : string) : element :=
  let info := Py.get feat [] STATS in
  if categorical STATS feat
  then Selectbox feat (elements (Py.get "classes" (PList []) info))
  else NumberInput feat (Py.get "min" (PInt 0) info) (Py.get "max" (PInt 1) info)
                   (Py.get "mean" (PFloat (PyFloat.float_lit 5 10)) info).

(** An element through which the user enters a feature or asks for a
    prediction, or that draws one. *)
Definition predictive (el : element) : bool :=
  match el with
  | Selectbox _ _ | NumberInput _ _ _ _ | Button _ | PlotlyChart _ => true
  | _ => false
  end.

(** The run ended through [st.stop()] right after a warning. *)
Definition halted_with_warning {A} (r : outcome A * world) : Prop :=
  fst r = Stop /\ exists s, last (page (snd r)) (Header "") = Warning s.

(** The first entry of the Y selector stands for no selection. *)
Definition y_unselected (inp : inputs) : Prop := selected inp "Variable Y (optionnel)" = 0%nat.

End Reading.
Import Reading.

(* ===================================================================== *)
(** ** Concrete data *)
(* ===================================================================== *)

Module Examples.

Import PyFloat.

Definition ages : list Z := [25; 30; 35; 40].
Definition glucoses : list Z := [85; 95; 105; 115].

(** The table of the end-to-end scenario. *)
Definition diabetes : dataframe :=
  [("Age", mkseries true (map PInt ages)); ("Glucose", mkseries true (map PInt glucoses))].

(** A table one of whose columns bears the name of the Y selector's
    first entry. *)
Definition homonym : dataframe :=
  [("Aucune", mkseries true (map PInt [1; 2; 3])); ("B", mkseries true (map PInt [2; 4; 7]))].

Definition csv_file : upload := mkupload "BD_DIABETE.csv" "Age,Glucose".
Definition broken_file : upload := mkupload "notes.xlsx" "not a workbook".

Definition missing : exn := mkexn FileNotFoundError "[Errno 2] No such file or directory: 'model.pkl'".
Definition unequal : exn := mkexn ValueError "The samples x and y must have the same length.".
Definition unreadable : exn := mkexn ValueError "Excel file format cannot be determined".

Definition artifact : payload :=
  mkpayload (Some (PObj "LogisticRegression"))
            (Some [("Smoker", PObj "LabelEncoder")])
            (Some ["Age"; "Smoker"; "Glucose"])
            (Some [("Age", [("type", PStr "numeric"); ("min", PFloat (float_of_Z 18));
                            ("max", PFloat (float_of_Z 90)); ("mean", PFloat (float_lit 425 10))]);
                   ("Smoker", [("type", PStr "categorical"); ("classes", PList [PStr "no"; PStr "yes"])])]).

(** A library: the artifact is [load]; [.csv] files parse to the table of
    the scenario and workbooks do not parse; every correlation is [r];
    Mann-Whitney gives [t], Wilcoxon rejects its samples; the classifier
    answers [proba]. *)
Definition library (load : result payload) (r : spec_float) (t : spec_float * spec_float)
           (proba : spec_float) : Lib :=
  mkLib (fun _ => load)
        (fun _ => Ok diabetes)
        (fun _ => Fail unreadable)
        (fun _ _ _ => Ok r)
        (fun _ _ => Ok (float_of_Z 30, float_of_Z 35))
        (fun _ _ => Ok (float_lit 325 10))
        (fun _ _ => Ok [(PInt 25, 1); (PInt 30, 1)])
        (fun _ _ _ => Ok t)
        (fun _ _ _ => Fail unequal)
        (fun _ _ _ => Ok t)
        (fun _ _ _ => Ok t)
        (fun _ v => Ok (PInt (if eq_str v "yes" then 1 else 0)))
        (fun _ _ => Ok proba)
        (fun _ => "?").

Definition one : spec_float := float_of_Z 1.

Definition demo : Lib :=
  library (Fail missing) one (float_of_Z 8, float_lit 1 100) (float_lit 12 100).

Definition demo_with_model : Lib :=
  library (Ok artifact) one (float_of_Z 8, float_of_Z 1) (float_lit 85 100).

(** A user who has only picked entries of selectors by position. *)
Definition picks (menu : nat) (file : option upload) (sel : string -> nat) (press : bool) : inputs :=
  mkinputs menu file sel None (fun _ => press) (fun _ => None).

(** Scatter plot, X the first column, Y the [y]-th entry of its selector. *)
Definition scatter_of (x y : nat) (label : string) : nat :=
  if String.eqb label "Variable X" then x
  else if String.eqb label "Variable Y (optionnel)" then y
  else if String.eqb label "Type de graphique" then 2%nat
  else 0%nat.

Definition empty_world : world := mkworld None [].

End Examples.
Import Examples.

(* ===================================================================== *)
(** ** Reading the rest of the script *)
(* ===================================================================== *)

Module Coverage.

Import PyFloat.

(** A piece of the script that leaves [st.session_state] as it found it. *)
Definition keeps_session {A} (c : St A) : Prop :=
  forall w, session_df (snd (c w)) = session_df w.

(** What every run puts on the page before it reaches a screen. *)
Definition prelude : list element :=
  [PageConfig "TTK_StatTestIA" "💙" "wide"; Markdown style;
   SidebarTitle "💙 TTK_StatTestIA"; SidebarRadio "Navigation" menu_options].

(** The screen behind the [i]-th entry of the navigation. *)
Definition screen_at (i : nat) (L : Lib) (inp : inputs) (g : bundle) : St unit :=
  match i with
  | 0%nat => home_screen
  | 1%nat => import_screen L inp
  | 2%nat => visualisation_screen L inp
  | 3%nat => tests_screen L inp
  | 4%nat => prediction_screen L inp g
  | _ => St.ret tt
  end.

(** The library [L] with another answer of joblib. *)
Definition with_artifact (L : Lib) (load : result payload) : Lib :=
  mkLib (fun _ => load) (read_csv L) (read_excel L) (corr L) (quantile L) (median L)
        (value_counts L) (mannwhitneyu L) (wilcoxon L) (kruskal L) (spearmanr L)
        (transform L) (predict_proba L) (repr L).

(** What the widget of a feature returns. *)
Definition widget_value (inp : inputs) (STATS : dict (dict pyval)) (feat : string) : pyval :=
  let info := Py.get feat [] STATS in
  if categorical STATS feat
  then chosen inp feat (elements (Py.get "classes" (PList []) info))
  else Widget.returned (Py.get "min" (PInt 0) info) (Py.get "max" (PInt 1) info)
                       (Py.get "mean" (PFloat (float_lit 5 10)) info) (entered inp feat).

(** The labels of the widgets on a page. *)
Definition widget_labels (pg : list element) : list string :=
  flat_map (fun el => match el with
                      | SidebarRadio l _ | FileUploader l _ | Selectbox l _ | ColorPicker l _
                      | Button l | NumberInput l _ _ _ => [l]
                      | _ => []
                      end) pg.

(** Three integers, or three finite floats, that the browser can hold, the
    third between the first two. *)
Definition plain_numbers (minv maxv value : pyval) : bool :=
  match minv, maxv, value with
  | PInt x, PInt y, PInt z =>
      (x <=? z)%Z && (z <=? y)%Z
      && negb (Widget.out_of_js_bounds true minv) && negb (Widget.out_of_js_bounds true maxv)
      && negb (Widget.out_of_js_bounds true value)
  | PFloat x, PFloat y, PFloat z =>
      finite x && finite y && finite z && negb (lt z x) && negb (lt y z)
      && negb (Widget.out_of_js_bounds false minv) && negb (Widget.out_of_js_bounds false maxv)
      && negb (Widget.out_of_js_bounds false value)
  | _, _, _ => false
  end.

(** A feature whose record suits its widget: a list of classes for a
    categorical feature, plain numbers as bounds and default for another. *)
Definition well_formed (STATS : dict (dict pyval)) (feat : string) : bool :=
  let info := Py.get feat [] STATS in
  if categorical STATS feat
  then match Py.get "classes" (PList []) info with
       | PList _ => true
       | _ => false
       end
  else plain_numbers (Py.get "min" (PInt 0) info) (Py.get "max" (PInt 1) info)
                     (Py.get "mean" (PFloat (float_lit 5 10)) info).

(** The statistics of the artifact of the examples. *)
Definition artifact_stats : dict (dict pyval) :=
  match payload_stats artifact with
  | Some s => s
  | None => []
  end.

Definition corrupt : exn := mkexn OtherError "invalid load key, 'x'.".
Definition not_numeric : exn := mkexn TypeError "unsupported operand type(s) for -: 'str' and 'str'".

(** A library in which pandas rejects every computation. *)
Definition strict : Lib :=
  mkLib (fun _ => Fail missing) (fun _ => Ok diabetes) (fun _ => Fail unreadable)
        (fun _ _ _ => Fail not_numeric) (fun _ _ => Fail not_numeric) (fun _ _ => Fail not_numeric)
        (fun _ _ => Fail not_numeric)
        (fun _ _ _ => Fail unequal) (fun _ _ _ => Fail unequal)
        (fun _ _ _ => Fail unequal) (fun _ _ _ => Fail unequal)
        (fun _ _ => Fail (mkexn ValueError "y contains previously unseen labels: 'maybe'"))
        (fun _ _ => Fail (mkexn ValueError "X has 2 features, but LogisticRegression is expecting 3 features as input."))
        (fun _ => "?").

(** A table with one numeric column and one of text. *)
Definition mixed : dataframe :=
  [("Nom", mkseries false [PStr "a"; PStr "b"]); ("Age", mkseries true [PInt 25; PInt 30])].

End Coverage.
Import Coverage.

(* ===================================================================== *)
(** * Theorems *)
(* ===================================================================== *)

Import PyFloat.
Local Open Scope Z_scope.

(** ** Binary64 numbers and the reals they denote *)

(** A mantissa of [d] binary digits lies between [2^(d-1)] and [2^d]. *)
Lemma digits2_pos_bounds (m : positive) :
  2 ^ (Zpos (digits2_pos m) - 1) <= Zpos m < 2 ^ Zpos (digits2_pos m).
Proof.
  induction m as [m IH | m IH |]; simpl digits2_pos.
  - rewrite Pos2Z.inj_succ.
    replace (Z.succ (Zpos (digits2_pos m)) - 1) with (Z.succ (Zpos (digits2_pos m) - 1)) by lia.
    rewrite !Z.pow_succ_r by lia. lia.
  - rewrite Pos2Z.inj_succ.
    replace (Z.succ (Zpos (digits2_pos m)) - 1) with (Z.succ (Zpos (digits2_pos m) - 1)) by lia.
    rewrite !Z.pow_succ_r by lia. lia.
  - simpl. lia.
Qed.

(** What [bounded] says of a mantissa and its exponent. *)
Lemma bounded_inv (m : positive) (e : Z) :
  bounded prec emax m e = true ->
  -1074 <= e <= 971 /\ Zpos m < 2 ^ 53 /\ (-1074 < e -> 2 ^ 52 <= Zpos m).
Proof.
  unfold bounded, canonical_mantissa, fexp, emin, prec, emax.
  intros H. apply andb_true_iff in H. destruct H as [Hc He].
  apply Z.eqb_eq in Hc. apply Z.leb_le in He.
  pose proof (digits2_pos_bounds m) as [Hlo Hhi].
  set (d := Zpos (digits2_pos m)) in *.
  assert (Hd : d <= 53) by lia.
  split; [lia|]. split.
  - apply Z.lt_le_trans with (2 ^ d); [exact Hhi|].
    apply Z.pow_le_mono_r; lia.
  - intros Hn. assert (d = 53) by lia. subst d. rewrite H in Hlo. exact Hlo.
Qed.

Lemma magnitude_lt (m1 m2 : positive) (e1 e2 : Z) :
  bounded prec emax m1 e1 = true -> bounded prec emax m2 e2 = true ->
  e1 < e2 -> Zpos m1 * 2 ^ (e1 + 1074) < Zpos m2 * 2 ^ (e2 + 1074).
Proof.
  intros H1 H2 Hlt.
  apply bounded_inv in H1. apply bounded_inv in H2.
  destruct H1 as [He1 [Hm1 _]]. destruct H2 as [He2 [_ Hm2]].
  assert (Hn : -1074 < e2) by lia. specialize (Hm2 Hn).
  replace (e2 + 1074) with ((e1 + 1074) + 1 + (e2 - e1 - 1)) by lia.
  rewrite (Z.pow_add_r 2 (e1 + 1074 + 1) (e2 - e1 - 1)) by lia.
  rewrite (Z.pow_add_r 2 (e1 + 1074) 1) by lia.
  assert (Ha : 0 < 2 ^ (e1 + 1074)) by (apply Z.pow_pos_nonneg; lia).
  assert (Hb : 0 < 2 ^ (e2 - e1 - 1)) by (apply Z.pow_pos_nonneg; lia).
  change (2 ^ 53) with (2 ^ 52 * 2) in Hm1. change (2 ^ 1) with 2.
  set (A := 2 ^ (e1 + 1074)) in *. set (B := 2 ^ (e2 - e1 - 1)) in *.
  set (P := 2 ^ 52) in *.
  assert (H1 : Zpos m1 * A < P * 2 * A) by (apply Z.mul_lt_mono_pos_r; lia).
  assert (H2 : P * (2 * A) <= Zpos m2 * (2 * A)) by (apply Z.mul_le_mono_nonneg_r; lia).
  assert (H3 : Zpos m2 * (2 * A) * 1 <= Zpos m2 * (2 * A) * B).
  { apply Z.mul_le_mono_nonneg_l; [apply Z.mul_nonneg_nonneg|]; lia. }
  replace (Zpos m2 * (A * 2 * B)) with (Zpos m2 * (2 * A) * B) by ring.
  lia.
Qed.

(** In units of [2^-1074]. *)
Lemma SF2R_SFint (f : spec_float) :
  is_float64 f = true -> SF2R f = (IZR (SFint f) * powerRZ 2 (-1074))%R.
Proof.
  destruct f as [s | s | | s m e]; unfold is_float64, valid_binary, SF2R, SFint; intros H;
    try (rewrite Rmult_0_l; reflexivity).
  apply bounded_inv in H. destruct H as [He _].
  assert (Hp : IZR (2 ^ (e + 1074)) = powerRZ 2 (e + 1074)).
  { destruct (e + 1074) as [| p | p] eqn:E; try lia.
    - reflexivity.
    - change (2 ^ Z.pos p) with (Z.pow_pos 2 p). apply Zpower_pos_powerRZ. }
  replace (powerRZ 2 e) with (powerRZ 2 (e + 1074) * powerRZ 2 (-1074))%R.
  - destruct s; unfold cond_Zopp; rewrite ?opp_IZR, ?mult_IZR, ?opp_IZR, Hp; ring.
  - rewrite <- powerRZ_add by lra. f_equal. lia.
Qed.

Lemma magnitude_pos (m : positive) (e : Z) : 0 < Zpos m * 2 ^ (e + 1074) \/ e + 1074 < 0.
Proof.
  destruct (Z_lt_le_dec (e + 1074) 0) as [Hn | Hn]; [right; exact Hn | left].
  apply Z.mul_pos_pos; [lia | apply Z.pow_pos_nonneg; lia].
Qed.

Lemma magnitude_pos_bounded (m : positive) (e : Z) :
  bounded prec emax m e = true -> 0 < Zpos m * 2 ^ (e + 1074).
Proof.
  intros H. apply bounded_inv in H.
  destruct (magnitude_pos m e); [assumption | lia].
Qed.

Lemma magnitude_compare (m1 m2 : positive) (e1 e2 : Z) :
  bounded prec emax m1 e1 = true -> bounded prec emax m2 e2 = true ->
  (Zpos m1 * 2 ^ (e1 + 1074) ?= Zpos m2 * 2 ^ (e2 + 1074)) =
  match e1 ?= e2 with
  | Lt => Lt
  | Gt => Gt
  | Eq => Pos.compare_cont Eq m1 m2
  end.
Proof.
  intros H1 H2.
  destruct (Z.compare_spec e1 e2) as [He | He | He].
  - subst e2. change (Pos.compare_cont Eq m1 m2) with (Zpos m1 ?= Zpos m2).
    assert (Hp : 0 < 2 ^ (e1 + 1074)).
    { apply bounded_inv in H1. apply Z.pow_pos_nonneg; lia. }
    destruct (Z.compare_spec (Zpos m1) (Zpos m2)) as [Hm | Hm | Hm].
    + rewrite Hm. apply Z.compare_refl.
    + apply Z.compare_lt_iff. apply Z.mul_lt_mono_pos_r; assumption.
    + apply Z.compare_gt_iff. apply Z.mul_lt_mono_pos_r; assumption.
  - apply Z.compare_lt_iff. apply magnitude_lt; assumption.
  - apply Z.compare_gt_iff. apply magnitude_lt; assumption.
Qed.

(** [SFcompare] on finite binary64 numbers is the comparison of what they
    denote, counted in units of [2^-1074]. *)
Lemma SFcompare_SFint (f g : spec_float) :
  is_float64 f = true -> is_float64 g = true -> finite f = true -> finite g = true ->
  SFcompare f g = Some (SFint f ?= SFint g).
Proof.
  destruct f as [sf | sf | | sf mf ef]; destruct g as [sg | sg | | sg mg eg];
    unfold is_float64, valid_binary, finite; intros Hf Hg Ff Fg; try discriminate.
  - reflexivity.
  - pose proof (magnitude_pos_bounded _ _ Hg) as Hp.
    unfold SFcompare, SFint, cond_Zopp. f_equal. symmetry.
    destruct sg; [apply Z.compare_gt_iff | apply Z.compare_lt_iff]; lia.
  - pose proof (magnitude_pos_bounded _ _ Hf) as Hp.
    unfold SFcompare, SFint, cond_Zopp. f_equal. symmetry.
    destruct sf; [apply Z.compare_lt_iff | apply Z.compare_gt_iff]; lia.
  - pose proof (magnitude_pos_bounded _ _ Hf) as Hpf.
    pose proof (magnitude_pos_bounded _ _ Hg) as Hpg.
    pose proof (magnitude_compare _ _ _ _ Hf Hg) as Hc.
    unfold SFcompare, SFint, cond_Zopp. f_equal.
    destruct sf, sg.
    + rewrite Z.compare_opp, (Z.compare_antisym (Zpos mf * 2 ^ (ef + 1074))), Hc.
      destruct (ef ?= eg); reflexivity.
    + symmetry. apply Z.compare_lt_iff. lia.
    + symmetry. apply Z.compare_gt_iff. lia.
    + rewrite Hc. reflexivity.
Qed.

Lemma value_finite (f : spec_float) : finite f = true -> value f = XFin (SF2R f).
Proof. destruct f; simpl; intros H; try discriminate; reflexivity. Qed.

Lemma unit_pos : (0 < powerRZ 2 (-1074))%R.
Proof. apply powerRZ_lt. lra. Qed.

Lemma SF2R_lt_SFint (f g : spec_float) :
  is_float64 f = true -> is_float64 g = true ->
  (SF2R f < SF2R g)%R <-> SFint f < SFint g.
Proof.
  intros Hf Hg. rewrite (SF2R_SFint f Hf), (SF2R_SFint g Hg).
  pose proof unit_pos as Hu. split; intros H.
  - apply lt_IZR. apply Rmult_lt_reg_r with (powerRZ 2 (-1074)); assumption.
  - apply Rmult_lt_compat_r; [assumption | apply IZR_lt; assumption].
Qed.

(** The IEEE comparison [a < b] of two binary64 numbers is the order of
    what they denote. *)
Lemma SFltb_value (f g : spec_float) :
  is_float64 f = true -> is_float64 g = true ->
  SFltb f g = true <-> xlt (value f) (value g).
Proof.
  intros Hf Hg.
  destruct (finite f) eqn:Ff; destruct (finite g) eqn:Fg.
  - rewrite (value_finite f Ff), (value_finite g Fg). unfold xlt.
    rewrite (SF2R_lt_SFint f g Hf Hg). unfold SFltb.
    rewrite (SFcompare_SFint f g Hf Hg Ff Fg).
    rewrite <- Z.compare_lt_iff.
    destruct (SFint f ?= SFint g); split; intros H; congruence.
  - destruct f as [s | s | | s m e]; destruct g as [s' | [] | | s' m' e']; try discriminate;
      simpl; try destruct s; split; intros H; try discriminate; try contradiction; auto.
  - destruct f as [s | [] | | s m e]; destruct g as [s' | s' | | s' m' e']; try discriminate;
      simpl; try destruct s'; split; intros H; try discriminate; try contradiction; auto.
  - destruct f as [s | [] | | s m e]; destruct g as [s' | [] | | s' m' e']; try discriminate;
      simpl; split; intros H; try discriminate; try contradiction; auto.
Qed.

(** *** The literals of the script *)

Lemma half_eq : float_lit 5 10 = S754_finite false 4503599627370496 (-53).
Proof. vm_compute. reflexivity. Qed.

Lemma thirty_eq : float_of_Z 30 = S754_finite false 8444249301319680 (-48).
Proof. vm_compute. reflexivity. Qed.

Lemma seventy_eq : float_of_Z 70 = S754_finite false 4925812092436480 (-46).
Proof. vm_compute. reflexivity. Qed.

Lemma twentieth_eq : float_lit 5 100 = S754_finite false 7205759403792794 (-57).
Proof. vm_compute. reflexivity. Qed.

Lemma SF2R_negative_exponent (s : bool) (m p : positive) :
  (SF2R (S754_finite s m (Zneg p)) * IZR (Z.pow_pos 2 p) = IZR (cond_Zopp s (Zpos m)))%R.
Proof.
  unfold SF2R. rewrite Zpower_pos_powerRZ, Rmult_assoc, <- powerRZ_add by lra.
  replace (Z.neg p + Z.pos p) with 0 by lia. rewrite powerRZ_O. ring.
Qed.

Lemma value_half : value (float_lit 5 10) = XFin (1 / 2).
Proof.
  rewrite half_eq. unfold value. f_equal.
  pose proof (SF2R_negative_exponent false 4503599627370496 53) as H.
  change (Z.pow_pos 2 53) with 9007199254740992 in H. simpl cond_Zopp in H. lra.
Qed.

Lemma value_neg_half : value (neg (float_lit 5 10)) = XFin (- (1 / 2)).
Proof.
  rewrite half_eq. unfold neg, SFopp, negb, value. f_equal.
  pose proof (SF2R_negative_exponent true 4503599627370496 53) as H.
  change (Z.pow_pos 2 53) with 9007199254740992 in H. simpl cond_Zopp in H. lra.
Qed.

Lemma value_thirty : value (float_of_Z 30) = XFin 30.
Proof.
  rewrite thirty_eq. unfold value. f_equal.
  pose proof (SF2R_negative_exponent false 8444249301319680 48) as H.
  change (Z.pow_pos 2 48) with 281474976710656 in H. simpl cond_Zopp in H. lra.
Qed.

Lemma value_seventy : value (float_of_Z 70) = XFin 70.
Proof.
  rewrite seventy_eq. unfold value. f_equal.
  pose proof (SF2R_negative_exponent false 4925812092436480 46) as H.
  change (Z.pow_pos 2 46) with 70368744177664 in H. simpl cond_Zopp in H. lra.
Qed.

Lemma gt_half (r : spec_float) :
  is_float64 r = true -> gt r (float_lit 5 10) = true <-> above r (1 / 2).
Proof.
  intros H. unfold gt, above. rewrite <- value_half. apply SFltb_value; [reflexivity | exact H].
Qed.

Lemma lt_neg_half (r : spec_float) :
  is_float64 r = true -> lt r (neg (float_lit 5 10)) = true <-> below r (- (1 / 2)).
Proof.
  intros H. unfold lt, below. rewrite <- value_neg_half. apply SFltb_value; [exact H | reflexivity].
Qed.

Lemma lt_thirty (p : spec_float) :
  is_float64 p = true -> lt p (float_of_Z 30) = true <-> below p 30.
Proof.
  intros H. unfold lt, below. rewrite <- value_thirty. apply SFltb_value; [exact H | reflexivity].
Qed.

Lemma lt_seventy (p : spec_float) :
  is_float64 p = true -> lt p (float_of_Z 70) = true <-> below p 70.
Proof.
  intros H. unfold lt, below. rewrite <- value_seventy. apply SFltb_value; [exact H | reflexivity].
Qed.

(** No binary64 number lies between one twentieth and the float the literal
    [0.05] denotes, which is slightly larger. *)
Lemma twentieth_grid (f : spec_float) :
  is_float64 f = true ->
  SFint f < 7205759403792794 * 2 ^ 1017 <-> 20 * SFint f < 2 ^ 1074.
Proof.
  intros Hf.
  assert (HQ : 0 < 2 ^ 1016) by (apply Z.pow_pos_nonneg; lia).
  assert (HP : 2 ^ 1017 = 2 * 2 ^ 1016) by (rewrite <- Z.pow_succ_r by lia; reflexivity).
  assert (HU : 2 ^ 1074 = 288230376151711744 * 2 ^ 1016).
  { change 288230376151711744 with (2 ^ 58). rewrite <- Z.pow_add_r by lia. reflexivity. }
  rewrite HP, HU. set (Q := 2 ^ 1016) in *.
  split; [| lia].
  destruct f as [s | s | | s m e]; unfold SFint; try lia.
  unfold is_float64, valid_binary in Hf.
  pose proof (magnitude_pos_bounded m e Hf) as Hpos.
  apply bounded_inv in Hf. destruct Hf as [He [Hm _]].
  destruct s; unfold cond_Zopp; [lia |].
  intros Hlt.
  destruct (Z_lt_le_dec (e + 1074) 1017) as [Hsmall | Hbig].
  - assert (Hpow : 2 ^ (e + 1074) <= Q) by (apply Z.pow_le_mono_r; lia).
    assert (H1 : Zpos m * 2 ^ (e + 1074) <= Zpos m * Q) by (apply Z.mul_le_mono_nonneg_l; lia).
    assert (H2 : Zpos m * Q < 2 ^ 53 * Q) by (apply Z.mul_lt_mono_pos_r; lia).
    change (2 ^ 53) with 9007199254740992 in H2. lia.
  - replace (e + 1074) with ((e + 57) + 1 + 1016) in * by lia.
    rewrite !Z.pow_add_r in * by lia. fold Q in Hlt |- *. change (2 ^ 1) with 2 in *.
    set (k := Zpos m * (2 ^ (e + 57) * 2)) in *.
    replace (Zpos m * (2 ^ (e + 57) * 2 * Q)) with (k * Q) in * by (unfold k; ring).
    assert (Hk : k < 7205759403792794 * 2).
    { apply Z.mul_lt_mono_pos_r with Q; [exact HQ | lia]. }
    assert (H1 : k * Q <= (7205759403792794 * 2 - 1) * Q) by (apply Z.mul_le_mono_nonneg_r; lia).
    lia.
Qed.

Lemma SF2R_below_ratio (f : spec_float) (n d : Z) :
  is_float64 f = true -> 0 < d ->
  (SF2R f < IZR n / IZR d)%R <-> d * SFint f < n * 2 ^ 1074.
Proof.
  intros Hf Hd. rewrite (SF2R_SFint f Hf).
  assert (HU : IZR (2 ^ 1074) = powerRZ 2 1074) by (apply (Zpower_pos_powerRZ 2 1074)).
  assert (Hone : (powerRZ 2 (-1074) * powerRZ 2 1074 = 1)%R).
  { rewrite <- powerRZ_add by lra. reflexivity. }
  pose proof unit_pos as Hu.
  assert (HUpos : (0 < powerRZ 2 1074)%R) by (apply powerRZ_lt; lra).
  assert (Hdpos : (0 < IZR d)%R) by (apply IZR_lt; exact Hd).
  set (u := powerRZ 2 (-1074)) in *. set (U := powerRZ 2 1074) in *.
  split; intros H.
  - apply lt_IZR. rewrite !mult_IZR, HU. fold U.
    apply Rmult_lt_compat_r with (r := (IZR d * U)%R) in H; [| nra].
    replace (IZR (SFint f) * u * (IZR d * U))%R with (IZR d * IZR (SFint f) * (u * U))%R in H by ring.
    replace (IZR n / IZR d * (IZR d * U))%R with (IZR n * U)%R in H by (field; lra).
    rewrite Hone in H. lra.
  - apply IZR_lt in H. rewrite !mult_IZR, HU in H. fold U in H.
    apply Rmult_lt_reg_r with (r := (IZR d * U)%R); [nra |].
    replace (IZR (SFint f) * u * (IZR d * U))%R with (IZR d * IZR (SFint f) * (u * U))%R by ring.
    replace (IZR n / IZR d * (IZR d * U))%R with (IZR n * U)%R by (field; lra).
    rewrite Hone. lra.
Qed.

(** [p < 0.05] in the script, where [0.05] is a float that is not one
    twentieth, still decides whether [p] is below one twentieth. *)
Lemma lt_twentieth (p : spec_float) :
  is_float64 p = true -> lt p (float_lit 5 100) = true <-> below p (5 / 100).
Proof.
  intros Hp. unfold lt, below.
  destruct (finite p) eqn:Fp.
  - rewrite (value_finite p Fp). unfold xlt.
    change (5 / 100)%R with (IZR 5 / IZR 100)%R.
    rewrite (SF2R_below_ratio p 5 100 Hp) by lia.
    unfold SFltb. rewrite (SFcompare_SFint p (float_lit 5 100) Hp) by (try exact Fp; reflexivity).
    rewrite twentieth_eq.
    change (SFint (S754_finite false 7205759403792794 (-57))) with (7205759403792794 * 2 ^ 1017).
    pose proof (twentieth_grid p Hp) as G.
    destruct (Z.compare_spec (SFint p) (7205759403792794 * 2 ^ 1017)) as [E | E | E];
      split; intros H; try reflexivity; try discriminate; lia.
  - rewrite twentieth_eq.
    destruct p as [s | [] | | s m e]; try discriminate; simpl; split; intros H;
      try discriminate; try contradiction; auto.
Qed.

(** ** The scatter plot's interpretation *)

Lemma scatter_interpretation_cases (x y : string) (r : spec_float) :
  is_float64 r = true ->
  (above r (1 / 2) -> scatter_interpretation x y r = positive_sentence x y) /\
  (below r (- (1 / 2)) -> scatter_interpretation x y r = negative_sentence x y) /\
  (~ above r (1 / 2) -> ~ below r (- (1 / 2)) ->
   scatter_interpretation x y r = inconclusive_sentence x y).
Proof.
  intros Hr. unfold scatter_interpretation.
  pose proof (gt_half r Hr) as Hg. pose proof (lt_neg_half r Hr) as Hl.
  destruct (gt r (float_lit 5 10)) eqn:Eg; destruct (lt r (neg (float_lit 5 10))) eqn:El.
  - exfalso. 
    assert (A : above r (1/2)) by (apply Hg; reflexivity).
    assert (B : below r (-(1/2))) by (apply Hl; reflexivity).
    unfold above, below in *. destruct (value r) as [| [] | v]; simpl in *; try contradiction. lra.
  - repeat split; intros; try reflexivity.
    + exfalso. apply Hl in H. discriminate.
    + exfalso. apply H. apply Hg. reflexivity.
  - repeat split; intros; try reflexivity.
    + exfalso. apply Hg in H. discriminate.
    + exfalso. apply H0. apply Hl. reflexivity.
  - repeat split; intros; try reflexivity.
    + exfalso. apply Hg in H. discriminate.
    + exfalso. apply Hl in H. discriminate.
Qed.

Lemma half_is_inconclusive (x y : string) :
  scatter_interpretation x y (float_lit 5 10) = inconclusive_sentence x y /\
  scatter_interpretation x y (neg (float_lit 5 10)) = inconclusive_sentence x y.
Proof. split; reflexivity. Qed.

(** C1.  On the scatter plot, once Y is chosen and pandas has returned the
    coefficient [r], the chart is built and its interpretation is
    [scatter_interpretation] of the two column names and [r]; which of the
    three sentences it is depends on [r] alone: the positive one when [r]
    is above 0.5, the negative one when [r] is below -0.5, the inconclusive
    one in every other case, NaN and the two bounds 0.5 and -0.5 included. *)
Theorem scatter_sentence_decided_by_r
  (L : Lib) (df : dataframe) (xcol ycol : pyval) (color_choice : string)
  (r : spec_float) (w : world) :
  eq_str ycol "Aucune" = false ->
  corr L df xcol ycol = Ok r ->
  is_float64 r = true ->
  let x := str L xcol in
  let y := str L ycol in
  let s := scatter_interpretation x y r in
  build_chart L df xcol ycol (PStr "Nuage de points") color_choice w =
    (Ret (Scatter xcol ycol color_choice ("Nuage de points : " ++ x ++ " vs " ++ y), s), w) /\
  (above r (1 / 2) -> s = positive_sentence x y) /\
  (below r (- (1 / 2)) -> s = negative_sentence x y) /\
  (~ above r (1 / 2) -> ~ below r (- (1 / 2)) -> s = inconclusive_sentence x y) /\
  scatter_interpretation x y (float_lit 5 10) = inconclusive_sentence x y /\
  scatter_interpretation x y (neg (float_lit 5 10)) = inconclusive_sentence x y.
Proof.
  intros Hy Hc Hr x y s.
  split.
  - unfold build_chart. change (eq_str (PStr "Nuage de points") "Histogramme") with false.
    change (eq_str (PStr "Nuage de points") "Boîte à moustaches") with false.
    change (eq_str (PStr "Nuage de points") "Nuage de points") with true.
    cbv iota. rewrite Hy. unfold St.bind, St.ret, St.call. rewrite Hc. reflexivity.
  - pose proof (scatter_interpretation_cases x y r Hr) as [Hp [Hn Hi]].
    pose proof (half_is_inconclusive x y) as [Hb1 Hb2].
    repeat split; assumption.
Qed.

Lemma scatter_sentence_decided_by_r_witness :
  build_chart demo diabetes (PStr "Age") (PStr "Glucose") (PStr "Nuage de points") "#0E6BA8" empty_world =
    (Ret (Scatter (PStr "Age") (PStr "Glucose") "#0E6BA8" "Nuage de points : Age vs Glucose",
          positive_sentence "Age" "Glucose"), empty_world).
Proof.
  exact (proj1 (scatter_sentence_decided_by_r demo diabetes (PStr "Age") (PStr "Glucose")
                  "#0E6BA8" one empty_world eq_refl eq_refl eq_refl)).
Defined.



(** ** The risk bands *)

Lemma below_mono (p : spec_float) (a b : R) : (a <= b)%R -> below p a -> below p b.
Proof.
  unfold below. destruct (value p) as [| [] | v]; simpl; intros; try contradiction; auto. lra.
Qed.

Lemma risk_cases (p : spec_float) :
  is_float64 p = true ->
  (below p 30 -> risk p = Success ("Faible risque (" ++ format_fixed 1 p ++ "%)")) /\
  (~ below p 30 -> below p 70 -> risk p = Warning ("Risque modéré (" ++ format_fixed 1 p ++ "%)")) /\
  (~ below p 70 -> risk p = Error ("Risque élevé (" ++ format_fixed 1 p ++ "%)")).
Proof.
  intros Hp. unfold risk.
  pose proof (lt_thirty p Hp) as H30. pose proof (lt_seventy p Hp) as H70.
  destruct (lt p (float_of_Z 30)) eqn:E30; destruct (lt p (float_of_Z 70)) eqn:E70;
    repeat split; intros; try reflexivity; exfalso;
    repeat match goal with
    | H : ~ below p _ |- _ => apply H; clear H
    | H : below p 30 |- _ => apply H30 in H; try discriminate
    | H : below p 70 |- _ => apply H70 in H; try discriminate
    | |- below p 30 => apply H30; reflexivity
    | |- below p 70 => first [ apply H70; reflexivity | apply (below_mono p 30 70); [lra |] ]
    end.
Qed.

(** A percentage that is not a number compares below nothing and lands in
    the last band. *)
Example risk_of_nan : risk S754_nan = Error "Risque élevé (nan%)".
Proof. reflexivity. Qed.

(** C2.  The verdict of the prediction screen is decided by the percentage
    [p] alone: below 30 the low-risk verdict, from 30 up to but not
    including 70 the moderate one, from 70 on the high one; the floats 30
    and 70 themselves fall in the upper band. *)
Theorem risk_band_by_percentage (p : spec_float) (x : R) :
  is_float64 p = true ->
  value p = XFin x ->
  (0 <= x <= 100)%R ->
  ((x < 30)%R -> risk p = Success ("Faible risque (" ++ format_fixed 1 p ++ "%)")) /\
  ((30 <= x < 70)%R -> risk p = Warning ("Risque modéré (" ++ format_fixed 1 p ++ "%)")) /\
  ((70 <= x)%R -> risk p = Error ("Risque élevé (" ++ format_fixed 1 p ++ "%)")) /\
  risk (float_of_Z 30) = Warning "Risque modéré (30.0%)" /\
  risk (float_of_Z 70) = Error "Risque élevé (70.0%)".
Proof.
  intros Hp Hv _.
  pose proof (risk_cases p Hp) as [Hlow [Hmid Hhigh]].
  unfold below in *. rewrite Hv in *. simpl in *.
  repeat split.
  - intros H. apply Hlow. exact H.
  - intros [H1 H2]. apply Hmid; [lra | exact H2].
  - intros H. apply Hhigh. lra.
Qed.

Lemma risk_band_by_percentage_witness :
  risk (float_lit 125 10) = Success "Faible risque (12.5%)".
Proof.
  refine (proj1 (risk_band_by_percentage (float_lit 125 10) (25 / 2) eq_refl _ _) _).
  - change (float_lit 125 10) with (S754_finite false 7036874417766400 (-49)).
    unfold value. f_equal.
    pose proof (SF2R_negative_exponent false 7036874417766400 49) as H.
    change (Z.pow_pos 2 49) with 562949953421312 in H. simpl cond_Zopp in H. lra.
  - lra.
  - lra.
Defined.

(** Brings the page of a finished run to a flat list. *)
Ltac st_norm := cbn [session_df page fst snd]; repeat rewrite <- app_assoc; cbn [app].

(** ** The monad of a run *)

Lemma bind_ret {A B} (c : St A) (k : A -> St B) (w w' : world) (a : A) :
  c w = (Ret a, w') -> St.bind c k w = k a w'.
Proof. intros H. unfold St.bind. rewrite H. reflexivity. Qed.

Lemma bind_raise {A B} (c : St A) (k : A -> St B) (w w' : world) (e : exn) :
  c w = (Raise e, w') -> St.bind c k w = (Raise e, w').
Proof. intros H. unfold St.bind. rewrite H. reflexivity. Qed.

Lemma ret_run {A} (a : A) (w : world) : St.ret a w = (Ret a, w).
Proof. reflexivity. Qed.

Lemma emit_run (el : element) (w : world) : emit el w = (Ret tt, shown w [el]).
Proof. reflexivity. Qed.

Lemma button_run (inp : inputs) (label : string) (w : world) :
  button inp label w = (Ret (clicked inp label), shown w [Button label]).
Proof. reflexivity. Qed.

Lemma bind_stop {A B} (c : St A) (k : A -> St B) (w w' : world) :
  c w = (Stop, w') -> St.bind c k w = (Stop, w').
Proof. intros H. unfold St.bind. rewrite H. reflexivity. Qed.

(** ** The test screen *)

(** The branch of lines 183-194 calls the routine that matches the
    selection and pairs its result with the sentence of the test. *)
Lemma run_test_routine (L : Lib) (df : dataframe) (test var1 var2 : pyval) (w : world) :
  run_test L df test var1 var2 w =
  match routine L test df var1 var2 with
  | Ok r => (Ret (r, sentence test), w)
  | Fail e => (Raise e, w)
  end.
Proof.
  unfold run_test, routine, sentence, St.bind, St.call, St.ret.
  destruct (eq_str test "Mann-Whitney"); [destruct (mannwhitneyu L df var1 var2); reflexivity |].
  destruct (eq_str test "Wilcoxon"); [destruct (wilcoxon L df var1 var2); reflexivity |].
  destruct (eq_str test "Kruskal-Wallis"); [destruct (kruskal L df var1 var2); reflexivity |].
  destruct (spearmanr L df var1 var2); reflexivity.
Qed.

(** With a table of two numeric columns or more in the session and the
    button pressed, the screen shows its widgets and runs the test on the
    user's selections. *)
Lemma tests_screen_pressed (L : Lib) (inp : inputs) (df : dataframe) (w : world) :
  session_df w = Some df ->
  (2 <= List.length (numeric_columns df))%nat ->
  clicked inp "Exécuter le test" = true ->
  tests_screen L inp w =
  execute_test L df
    (chosen inp "Choisir un test" (map PStr test_options))
    (chosen inp "Variable A" (map PStr (numeric_columns df)))
    (chosen inp "Variable B" (map PStr (numeric_columns df)))
    (shown w (tests_widgets df)).
Proof.
  destruct w as [s pg]. cbn [session_df]. intros Hs Hn Hc. subst s.
  unfold tests_screen, St.bind at 1, emit at 1, St.bind at 1, session_get.
  cbn [session_df page].
  destruct (Nat.ltb_spec (List.length (numeric_columns df)) 2) as [Hlt | _]; [lia |].
  unfold selectbox, button, St.bind, emit, St.ret. cbn [session_df page].
  rewrite Hc. unfold shown, tests_widgets, chosen. cbn [session_df page].
  repeat rewrite <- app_assoc. reflexivity.
Qed.

(** A p-value that is not a number is not significant. *)
Example verdict_of_nan :
  verdict "Spearman" (sentence (PStr "Spearman")) S754_nan =
  Warning "⚠️ Pas de différence significative détectée selon Spearman.".
Proof. reflexivity. Qed.

(** C3.  Whatever the test selected and whatever statistic and p-value its
    routine returns, the screen reports the significant verdict exactly
    when the p-value is below 0.05 and the not-significant one otherwise;
    a p-value equal to the float 0.05 is not significant. *)
Theorem verdict_significant_iff_below_005
  (L : Lib) (df : dataframe) (test var1 var2 : pyval) (stat p : spec_float) (w : world) :
  routine L test df var1 var2 = Ok (stat, p) ->
  is_float64 p = true ->
  let line := Success ("Statistique = " ++ format_fixed 3 stat ++ " | p-valeur = " ++ format_fixed 4 p) in
  let significant :=
    Info ("✅ Résultat significatif : " ++ sentence test ++ ". Il existe une différence ou une relation notable.") in
  let not_significant :=
    Warning ("⚠️ Pas de différence significative détectée selon " ++ str L test ++ ".") in
  (below p (5 / 100) <-> execute_test L df test var1 var2 w = (Ret tt, shown w [line; significant])) /\
  (~ below p (5 / 100) <-> execute_test L df test var1 var2 w = (Ret tt, shown w [line; not_significant])) /\
  verdict (str L test) (sentence test) (float_lit 5 100) = not_significant.
Proof.
  intros Hr Hp line significant not_significant.
  assert (Hrun : execute_test L df test var1 var2 w =
                 (Ret tt, shown w [line; verdict (str L test) (sentence test) p])).
  { unfold execute_test, try_except, try_catch, St.bind at 1.
    rewrite run_test_routine, Hr.
    unfold St.bind, emit, shown. cbn [fst snd session_df page].
    rewrite <- app_assoc. reflexivity. }
  rewrite Hrun. pose proof (lt_twentieth p Hp) as Hlt.
  unfold verdict. fold significant. fold not_significant.
  assert (Hne : significant <> not_significant) by (unfold significant, not_significant; discriminate).
  destruct (lt p (float_lit 5 100)) eqn:E.
  - assert (Hb : below p (5 / 100)) by (apply Hlt; reflexivity).
    repeat split; intros H; try reflexivity; try assumption.
    + contradiction.
    + exfalso. apply Hne. injection H as H. apply app_inv_head in H. injection H as H. exact H.
  - assert (Hb : ~ below p (5 / 100)) by (intros H; apply Hlt in H; discriminate).
    repeat split; intros H; try reflexivity; try assumption.
    + contradiction.
    + exfalso. apply Hne. injection H as H. apply app_inv_head in H. injection H as H.
      symmetry. exact H.
Qed.

Lemma verdict_significant_iff_below_005_witness :
  execute_test demo diabetes (PStr "Mann-Whitney") (PStr "Age") (PStr "Glucose") empty_world =
  (Ret tt,
   mkworld None
     [Success "Statistique = 8.000 | p-valeur = 0.0100";
      Info "✅ Résultat significatif : Le test compare les médianes de deux groupes indépendants.. Il existe une différence ou une relation notable."]).
Proof.
  refine (proj1 (proj1 (verdict_significant_iff_below_005 demo diabetes (PStr "Mann-Whitney")
            (PStr "Age") (PStr "Glucose") (float_of_Z 8) (float_lit 1 100) empty_world
            eq_refl eq_refl)) _).
  apply (proj1 (lt_twentieth (float_lit 1 100) eq_refl)). reflexivity.
Defined.

(** C7.  When the routine of the selected test raises, the exception stops
    at the [try] of the button: the run of the screen ends normally, the
    page shows the widgets and then the message of the exception as an
    error, and the session is untouched, so the next interaction finds the
    screen as before. *)
Theorem test_exception_is_caught
  (L : Lib) (inp : inputs) (df : dataframe) (w : world) (e : exn) :
  session_df w = Some df ->
  (2 <= List.length (numeric_columns df))%nat ->
  clicked inp "Exécuter le test" = true ->
  routine L (chosen inp "Choisir un test" (map PStr test_options)) df
          (chosen inp "Variable A" (map PStr (numeric_columns df)))
          (chosen inp "Variable B" (map PStr (numeric_columns df))) = Fail e ->
  tests_screen L inp w =
  (Ret tt, shown w (tests_widgets df ++ [Error ("Erreur : " ++ message e)])).
Proof.
  intros Hs Hn Hc Hr.
  rewrite (tests_screen_pressed L inp df w Hs Hn Hc).
  unfold execute_test, try_except, try_catch, St.bind at 1.
  rewrite run_test_routine, Hr. unfold emit, shown. cbn [session_df page].
  rewrite <- app_assoc. reflexivity.
Qed.

Lemma test_exception_is_caught_witness :
  tests_screen demo
    (picks 3 None (fun l => if String.eqb l "Choisir un test" then 1%nat else 0%nat) true)
    (mkworld (Some diabetes) []) =
  (Ret tt,
   mkworld (Some diabetes)
     (tests_widgets diabetes ++
      [Error "Erreur : The samples x and y must have the same length."])).
Proof.
  exact (test_exception_is_caught demo
           (picks 3 None (fun l => if String.eqb l "Choisir un test" then 1%nat else 0%nat) true)
           diabetes (mkworld (Some diabetes) []) unequal eq_refl (le_n 2) eq_refl eq_refl).
Defined.

(** ** The import screen *)

(** C4.  With a file uploaded, the import screen calls the parser of the
    file's kind.  If the parser raises, the run ends with that very
    exception, nothing catches it, and the session holds what it held; if
    the parser returns a table, the session holds that table and the page
    shows the success line and the first rows.  Without a file the session
    is not written either. *)
Theorem import_updates_session_only_on_success (L : Lib) (inp : inputs) (w : world) :
  let widgets :=
    [Header "📂 Importation des données";
     FileUploader "Choisissez un fichier CSV/Excel (ex : BD_DIABETE.csv)" ["csv"; "xlsx"]] in
  (forall f e, uploaded inp = Some f -> parse L f = Fail e ->
     import_screen L inp w = (Raise e, shown w widgets) /\
     session_df (snd (import_screen L inp w)) = session_df w) /\
  (forall f df, uploaded inp = Some f -> parse L f = Ok df ->
     import_screen L inp w =
     (Ret tt, mkworld (Some df)
                (page w ++ widgets ++ [Success "✅ Importation réussie."; DataframeView (head df)]))) /\
  (uploaded inp = None -> import_screen L inp w = (Ret tt, shown w widgets)).
Proof.
  intros widgets. subst widgets.
  unfold import_screen, file_uploader, St.bind, emit, St.ret, St.call, session_set, shown, parse.
  repeat split.
  - rewrite H, H0. st_norm. reflexivity.
  - rewrite H, H0. reflexivity.
  - intros f df Hu Hp. rewrite Hu, Hp. st_norm. reflexivity.
  - intros Hu. rewrite Hu. st_norm. reflexivity.
Qed.

Lemma import_updates_session_only_on_success_witness :
  session_df (snd (import_screen demo (picks 1 (Some broken_file) (fun _ => 0%nat) false)
                                 (mkworld (Some homonym) []))) = Some homonym /\
  session_df (snd (import_screen demo (picks 1 (Some csv_file) (fun _ => 0%nat) false)
                                 (mkworld (Some homonym) []))) = Some diabetes.
Proof.
  pose proof (import_updates_session_only_on_success demo
                (picks 1 (Some broken_file) (fun _ => 0%nat) false) (mkworld (Some homonym) []))
    as [Hfail _].
  pose proof (import_updates_session_only_on_success demo
                (picks 1 (Some csv_file) (fun _ => 0%nat) false) (mkworld (Some homonym) []))
    as [_ [Hok _]].
  split.
  - exact (proj2 (Hfail broken_file unreadable eq_refl eq_refl)).
  - rewrite (Hok csv_file diabetes eq_refl eq_refl). reflexivity.
Defined.

(** ** The model loader *)

(** C5.  If joblib does not find [model.pkl], the loader ends normally with
    the flag off, no model, no encoders, no features and no statistics;
    if joblib returns an artifact that has a model, a feature list and
    statistics, the flag is on and the features are the artifact's list,
    unchanged; the encoders default to none when the artifact has none. *)
Theorem loader_missing_or_loaded (L : Lib) (w : world) :
  (forall e, joblib_load L "model.pkl" = Fail e -> is_FileNotFoundError e = true ->
     load_model L w = (Ret (mkbundle false PNone [] [] []), w)) /\
  (forall m enc fs st,
     joblib_load L "model.pkl" = Ok (mkpayload (Some m) enc (Some fs) (Some st)) ->
     exists g, load_model L w = (Ret g, w) /\
               model_loaded g = true /\ FEATURES g = fs /\ STATS g = st /\ model g = m /\
               encoders g = match enc with Some d => d | None => [] end).
Proof.
  unfold load_model, try_catch, St.bind, St.call, St.ret, subscript, MODEL_FILE. split.
  - intros e He Hf. rewrite He, Hf. reflexivity.
  - intros m enc fs st He. rewrite He. cbn.
    eexists. split; [reflexivity |]. cbn. repeat split; reflexivity.
Qed.

Lemma loader_missing_or_loaded_witness :
  load_model demo empty_world = (Ret (mkbundle false PNone [] [] []), empty_world) /\
  exists g, load_model demo_with_model empty_world = (Ret g, empty_world) /\
            model_loaded g = true /\ FEATURES g = ["Age"; "Smoker"; "Glucose"].
Proof.
  split.
  - exact (proj1 (loader_missing_or_loaded demo empty_world) missing eq_refl eq_refl).
  - destruct (proj2 (loader_missing_or_loaded demo_with_model empty_world)
                _ _ _ _ eq_refl) as [g [Hrun [Hl [Hf _]]]].
    exists g. repeat split; assumption.
Defined.

(** ** The prediction screen without a model *)

Lemma load_model_missing (L : Lib) (w : world) (e : exn) :
  joblib_load L "model.pkl" = Fail e -> is_FileNotFoundError e = true ->
  load_model L w = (Ret (mkbundle false PNone [] [] []), w).
Proof.
  intros He Hf. unfold load_model, try_catch, St.bind, St.call, MODEL_FILE.
  rewrite He, Hf. reflexivity.
Qed.

(** C8.  With the flag off, the prediction screen shows its header and the
    fixed error that names [model.pkl], then stops the run: nothing else
    reaches the page, neither a widget for a feature, nor the button, nor a
    gauge or a verdict.  So does the whole script when joblib does not find
    the file and the user is on that screen. *)
Theorem prediction_disabled_without_model (L : Lib) (inp : inputs) (g : bundle) (w : world) :
  let notice :=
    [Header "🔮 Prédiction du risque de diabète";
     Error "Le fichier model.pkl est introuvable. Exécutez d'abord train_model.py pour générer le modèle."] in
  (model_loaded g = false -> prediction_screen L inp g w = (Stop, shown w notice)) /\
  (forall e s, joblib_load L "model.pkl" = Fail e -> is_FileNotFoundError e = true ->
     radio inp = 4%nat ->
     render L inp s =
     (Stop, mkworld s ([PageConfig "TTK_StatTestIA" "💙" "wide"; Markdown style;
                        SidebarTitle "💙 TTK_StatTestIA"; SidebarRadio "Navigation" menu_options]
                       ++ notice))) /\
  existsb predictive notice = false.
Proof.
  intros notice. subst notice. split; [| split; [| reflexivity]].
  - intros Hg. unfold prediction_screen, St.bind, emit, St.stop, St.call, shown.
    rewrite Hg. cbn [negb]. cbv beta iota. st_norm. reflexivity.
  - intros e s He Hf Hm. unfold render, app, St.bind at 1, emit at 1, St.bind at 1, emit at 1.
    unfold St.bind at 1.
    rewrite (load_model_missing L _ e He Hf).
    unfold sidebar_radio, St.bind, emit, St.ret. rewrite Hm.
    cbn [nth menu_options String.eqb Ascii.eqb Bool.eqb].
    unfold prediction_screen, St.bind, emit, St.stop, St.call.
    cbn [negb model_loaded]. cbv beta iota. st_norm. reflexivity.
Qed.

Lemma prediction_disabled_without_model_witness :
  prediction_screen demo (picks 4 None (fun _ => 0%nat) true) (mkbundle false PNone [] [] [])
                    empty_world =
  (Stop,
   mkworld None
     [Header "🔮 Prédiction du risque de diabète";
      Error "Le fichier model.pkl est introuvable. Exécutez d'abord train_model.py pour générer le modèle."]).
Proof.
  exact (proj1 (prediction_disabled_without_model demo (picks 4 None (fun _ => 0%nat) true)
                  (mkbundle false PNone [] [] []) empty_world) eq_refl).
Defined.

(** ** The scatter plot's guard *)

(** With a table in the session, the screen shows its widgets and builds
    the chart from the user's selections. *)
Lemma visualisation_screen_chart (L : Lib) (inp : inputs) (df : dataframe) (w : world) :
  session_df w = Some df ->
  visualisation_screen L inp w =
  St.bind (build_chart L df (chosen inp "Variable X" (map PStr (columns df)))
             (chosen inp "Variable Y (optionnel)" (PStr "Aucune" :: map PStr (columns df)))
             (chosen inp "Type de graphique" (map PStr chart_options))
             (match color inp with Some c => c | None => "#0E6BA8" end))
          (fun chart => St.bind (emit (PlotlyChart (fst chart)))
                          (fun _ => emit (Info ("🧠 Interprétation : " ++ snd chart))))
          (shown w (chart_widgets df)).
Proof.
  destruct w as [s pg]. cbn [session_df]. intros Hs. subst s.
  unfold visualisation_screen, St.bind at 1, emit at 1, St.bind at 1, session_get.
  cbn [session_df page].
  unfold selectbox at 1, St.bind at 1, St.bind at 1, emit at 1, St.ret at 1.
  unfold selectbox at 1, St.bind at 1, St.bind at 1, emit at 1, St.ret at 1.
  unfold selectbox at 1, St.bind at 1, St.bind at 1, emit at 1, St.ret at 1.
  unfold color_picker, St.bind at 1, St.bind at 1, emit at 1, St.ret at 1.
  unfold shown, chart_widgets, chosen. st_norm. reflexivity.
Qed.

(** The scatter branch stops, after its warning, exactly when the value of
    the Y selector is the string of its first entry. *)
Lemma scatter_guard (L : Lib) (df : dataframe) (xcol ycol : pyval) (c : string) (w : world) :
  (eq_str ycol "Aucune" = true ->
   build_chart L df xcol ycol (PStr "Nuage de points") c w =
   (Stop, shown w [Warning "Veuillez choisir une variable Y pour un nuage de points."])) /\
  (eq_str ycol "Aucune" = false ->
   build_chart L df xcol ycol (PStr "Nuage de points") c w =
   match corr L df xcol ycol with
   | Ok r => (Ret (Scatter xcol ycol c ("Nuage de points : " ++ str L xcol ++ " vs " ++ str L ycol),
                   scatter_interpretation (str L xcol) (str L ycol) r), w)
   | Fail e => (Raise e, w)
   end).
Proof.
  unfold build_chart.
  change (eq_str (PStr "Nuage de points") "Histogramme") with false.
  change (eq_str (PStr "Nuage de points") "Boîte à moustaches") with false.
  change (eq_str (PStr "Nuage de points") "Nuage de points") with true.
  cbv iota. split; intros Hy; rewrite Hy.
  - reflexivity.
  - unfold St.bind, St.ret, St.call. destruct (corr L df xcol ycol); reflexivity.
Qed.

(** The three other charts never end through [st.stop()], whatever Y is. *)
Lemma other_charts_never_stop (L : Lib) (df : dataframe) (xcol ycol chart_type : pyval)
      (c : string) (w : world) :
  eq_str chart_type "Nuage de points" = false ->
  fst (build_chart L df xcol ycol chart_type c w) <> Stop.
Proof.
  intros Hk. unfold build_chart, St.bind, St.ret, St.call, St.raise.
  destruct (eq_str chart_type "Histogramme"); [discriminate |].
  destruct (eq_str chart_type "Boîte à moustaches").
  - destruct (quantile L df xcol); [| discriminate].
    destruct (median L df xcol); discriminate.
  - rewrite Hk.
    destruct (value_counts L df xcol) as [[| [top val] rest] | e];
      destruct (eq_str xcol "Valeurs"); discriminate.
Qed.

Lemma scatter_screen_halts_iff_sentinel (L : Lib) (inp : inputs) (df : dataframe) (w : world) :
  session_df w = Some df ->
  chosen inp "Type de graphique" (map PStr chart_options) = PStr "Nuage de points" ->
  halted_with_warning (visualisation_screen L inp w) <->
  eq_str (chosen inp "Variable Y (optionnel)" (PStr "Aucune" :: map PStr (columns df))) "Aucune" = true.
Proof.
  intros Hs Hk. rewrite (visualisation_screen_chart L inp df w Hs), Hk.
  set (xcol := chosen inp "Variable X" _). set (ycol := chosen inp "Variable Y (optionnel)" _).
  set (c := match color inp with Some c => c | None => _ end).
  destruct (scatter_guard L df xcol ycol c (shown w (chart_widgets df))) as [Hstop Hgo].
  unfold halted_with_warning.
  destruct (eq_str ycol "Aucune") eqn:Ey.
  - rewrite (bind_stop _ _ _ _ (Hstop eq_refl)). split; [reflexivity |]. intros _.
    split; [reflexivity |].
    exists "Veuillez choisir une variable Y pour un nuage de points.".
    unfold shown. cbn [snd page]. apply last_last.
  - split; [| discriminate]. intros [Hout _]. exfalso. revert Hout.
    unfold St.bind at 1. rewrite (Hgo eq_refl).
    destruct (corr L df xcol ycol); cbn; discriminate.
Qed.

Lemma sentinel_only_when_unselected (inp : inputs) (df : dataframe) :
  ~ In "Aucune" (columns df) ->
  eq_str (chosen inp "Variable Y (optionnel)" (PStr "Aucune" :: map PStr (columns df))) "Aucune" = true
  <-> y_unselected inp.
Proof.
  intros Hfree. unfold chosen, y_unselected.
  destruct (selected inp "Variable Y (optionnel)") as [| j]; [split; reflexivity |].
  split; [| discriminate]. cbn [nth]. intros H. exfalso.
  destruct (nth_in_or_default j (map PStr (columns df)) PNone) as [Hin | Hd].
  - apply in_map_iff in Hin. destruct Hin as [name [Hn Hin]]. rewrite <- Hn in H.
    cbn in H. apply String.eqb_eq in H. subst name. contradiction.
  - rewrite Hd in H. discriminate.
Qed.

(** On tables none of whose columns is called [Aucune], the scatter plot
    halts with its warning exactly when no Y is selected. *)
Lemma scatter_halts_iff_unselected (L : Lib) (inp : inputs) (df : dataframe) (w : world) :
  session_df w = Some df ->
  ~ In "Aucune" (columns df) ->
  chosen inp "Type de graphique" (map PStr chart_options) = PStr "Nuage de points" ->
  halted_with_warning (visualisation_screen L inp w) <-> y_unselected inp.
Proof.
  intros Hs Hfree Hk.
  rewrite (scatter_screen_halts_iff_sentinel L inp df w Hs Hk).
  apply sentinel_only_when_unselected. exact Hfree.
Qed.

(** C6.  The table [homonym] has a column called [Aucune].  The user picks
    the scatter plot, X the column [B], and for Y the second entry of the
    selector, which is that column: a Y is selected, and yet the screen
    warns that a Y must be chosen and stops, drawing no chart. *)
Theorem scatter_halts_on_homonymous_column :
  let inp := picks 2 None (scatter_of 1 1) false in
  ~ y_unselected inp /\
  nth_error (columns homonym) (selected inp "Variable Y (optionnel)" - 1) = Some "Aucune" /\
  visualisation_screen demo inp (mkworld (Some homonym) []) =
  (Stop, mkworld (Some homonym)
           (chart_widgets homonym ++
            [Warning "Veuillez choisir une variable Y pour un nuage de points."])) /\
  halted_with_warning (visualisation_screen demo inp (mkworld (Some homonym) [])).
Proof.
  intros inp. split; [| split; [| split]].
  - unfold y_unselected. cbn. discriminate.
  - reflexivity.
  - reflexivity.
  - split; [reflexivity |]. eexists. reflexivity.
Qed.

Lemma scatter_halt_not_only_when_unselected :
  ~ (forall (L : Lib) (inp : inputs) (df : dataframe) (w : world),
       session_df w = Some df ->
       chosen inp "Type de graphique" (map PStr chart_options) = PStr "Nuage de points" ->
       halted_with_warning (visualisation_screen L inp w) <-> y_unselected inp).
Proof.
  intros H.
  assert (Hsel : ~ y_unselected (picks 2 None (scatter_of 1 1) false))
    by (unfold y_unselected; cbn; discriminate).
  apply Hsel.
  apply (H demo (picks 2 None (scatter_of 1 1) false) homonym (mkworld (Some homonym) []));
    [reflexivity | reflexivity |].
  split; [reflexivity |]. eexists. reflexivity.
Qed.

(** ** The end-to-end scenario *)

Lemma codeviation_age_glucose :
  codeviation (map IZR ages) (map IZR glucoses) = 250%R /\
  codeviation (map IZR ages) (map IZR ages) = 125%R /\
  codeviation (map IZR glucoses) (map IZR glucoses) = 500%R.
Proof.
  unfold codeviation, mean, Real.sum, ages, glucoses. cbn. repeat split; field.
Qed.

(** The ages and the glucose levels are linked by a line of positive slope:
    their Pearson coefficient is one. *)
Lemma pearson_age_glucose :
  pearson (column_reals "Age" diabetes) (column_reals "Glucose" diabetes) = 1%R.
Proof.
  change (column_reals "Age" diabetes) with (map IZR ages).
  change (column_reals "Glucose" diabetes) with (map IZR glucoses).
  unfold pearson. destruct codeviation_age_glucose as [Hxy [Hxx Hyy]].
  rewrite Hxy, Hxx, Hyy. rewrite <- sqrt_mult by lra.
  replace (125 * 500)%R with (250 * 250)%R by lra.
  rewrite sqrt_square by lra. field.
Qed.

Lemma import_screen_parsed (L : Lib) (inp : inputs) (w : world) (f : upload) (df : dataframe) :
  uploaded inp = Some f -> parse L f = Ok df ->
  import_screen L inp w =
  (Ret tt, mkworld (Some df)
             (page w ++ [Header "📂 Importation des données";
                         FileUploader "Choisissez un fichier CSV/Excel (ex : BD_DIABETE.csv)"
                                      ["csv"; "xlsx"]]
                     ++ [Success "✅ Importation réussie."; DataframeView (head df)])).
Proof.
  intros Hu Hp.
  unfold import_screen, file_uploader, St.bind, emit, St.ret, St.call, session_set, parse in *.
  rewrite Hu, Hp. st_norm. reflexivity.
Qed.

Lemma scatter_chart_built (L : Lib) (df : dataframe) (xcol ycol : pyval) (c : string)
      (r : spec_float) (w : world) :
  eq_str ycol "Aucune" = false -> corr L df xcol ycol = Ok r -> is_float64 r = true ->
  build_chart L df xcol ycol (PStr "Nuage de points") c w =
    (Ret (Scatter xcol ycol c ("Nuage de points : " ++ str L xcol ++ " vs " ++ str L ycol),
          scatter_interpretation (str L xcol) (str L ycol) r), w) /\
  (above r (1 / 2) ->
   scatter_interpretation (str L xcol) (str L ycol) r = positive_sentence (str L xcol) (str L ycol)).
Proof.
  intros Hy Hc Hr. split.
  - rewrite (proj2 (scatter_guard L df xcol ycol c w) Hy), Hc. reflexivity.
  - exact (proj1 (scatter_interpretation_cases _ _ r Hr)).
Qed.

Lemma value_one : value one = XFin 1.
Proof.
  change one with (S754_finite false 4503599627370496 (-52)). unfold value. f_equal.
  pose proof (SF2R_negative_exponent false 4503599627370496 52) as H.
  change (Z.pow_pos 2 52) with 4503599627370496 in H. simpl cond_Zopp in H. lra.
Qed.

(** pandas' own computation, in binary64, of the coefficient of the two
    columns of the scenario: every step is exact but the division by three
    and the square roots, and the quotient comes out as the float 1.0. *)
Lemma series_corr_age_glucose :
  Pandas.series_corr diabetes (PStr "Age") (PStr "Glucose") = Ok one.
Proof. vm_compute. reflexivity. Qed.

(** C9.  The scenario: a file that parses to the table with the columns
    Age = 25, 30, 35, 40 and Glucose = 85, 95, 105, 115 is imported, then
    the scatter plot of Glucose against Age is asked for.  With pandas' own
    [Series.corr] as the correlation of the library, whatever its other
    routines, the coefficient computed at line 143 is the float 1.0, which
    denotes the real number 1, the Pearson coefficient of the two columns
    over the reals; the session holds the table after the import, and the
    visualisation screen draws the chart and shows the positive-relation
    sentence. *)
Theorem scenario_age_glucose_exactly_one
  (L : Lib) (imp viz : inputs) (f : upload) (w : world) :
  uploaded imp = Some f ->
  parse L f = Ok diabetes ->
  chosen viz "Variable X" (map PStr (columns diabetes)) = PStr "Age" ->
  chosen viz "Variable Y (optionnel)" (PStr "Aucune" :: map PStr (columns diabetes)) = PStr "Glucose" ->
  chosen viz "Type de graphique" (map PStr chart_options) = PStr "Nuage de points" ->
  let P := Pandas.with_series_corr L in
  let imported := snd (import_screen P imp w) in
  corr P diabetes (PStr "Age") (PStr "Glucose") = Ok (float_of_Z 1) /\
  value (float_of_Z 1) = XFin 1 /\
  pearson (column_reals "Age" diabetes) (column_reals "Glucose" diabetes) = 1%R /\
  session_df imported = Some diabetes /\
  visualisation_screen P viz (mkworld (session_df imported) []) =
  (Ret tt,
   mkworld (Some diabetes)
     (chart_widgets diabetes ++
      [PlotlyChart (Scatter (PStr "Age") (PStr "Glucose")
                            (match color viz with Some c => c | None => "#0E6BA8" end)
                            "Nuage de points : Age vs Glucose");
       Info ("🧠 Interprétation : " ++ positive_sentence "Age" "Glucose")])).
Proof.
  intros Hup Hparse Hx Hy Hk P imported.
  assert (Hc : corr P diabetes (PStr "Age") (PStr "Glucose") = Ok one)
    by exact series_corr_age_glucose.
  assert (Hs : session_df imported = Some diabetes).
  { unfold imported. rewrite (import_screen_parsed P imp w f diabetes Hup Hparse). reflexivity. }
  split; [exact Hc |]. split; [exact value_one |]. split; [exact pearson_age_glucose |].
  split; [exact Hs |].
  rewrite Hs.
  rewrite (visualisation_screen_chart P viz diabetes (mkworld (Some diabetes) []) eq_refl).
  rewrite Hx, Hy, Hk.
  set (c := match color viz with Some c => c | None => _ end).
  pose proof (scatter_chart_built P diabetes (PStr "Age") (PStr "Glucose") c one
                (shown (mkworld (Some diabetes) []) (chart_widgets diabetes)) eq_refl Hc eq_refl)
    as [Hbuild Hpos].
  rewrite (bind_ret _ _ _ _ _ Hbuild).
  rewrite Hpos.
  - unfold St.bind, emit, shown. st_norm. reflexivity.
  - unfold above. rewrite value_one. cbn. lra.
Qed.

Lemma scenario_age_glucose_exactly_one_witness :
  visualisation_screen (Pandas.with_series_corr strict) (picks 2 None (scatter_of 0 2) false)
    (mkworld (session_df (snd (import_screen (Pandas.with_series_corr strict)
                                             (picks 1 (Some csv_file) (fun _ => 0%nat) false)
                                             empty_world))) []) =
  (Ret tt,
   mkworld (Some diabetes)
     (chart_widgets diabetes ++
      [PlotlyChart (Scatter (PStr "Age") (PStr "Glucose") "#0E6BA8" "Nuage de points : Age vs Glucose");
       Info ("🧠 Interprétation : " ++ positive_sentence "Age" "Glucose")])).
Proof.
  exact (proj2 (proj2 (proj2 (proj2
    (scenario_age_glucose_exactly_one strict (picks 1 (Some csv_file) (fun _ => 0%nat) false)
       (picks 2 None (scatter_of 0 2) false) csv_file empty_world
       eq_refl eq_refl eq_refl eq_refl eq_refl))))).
Defined.

(** ** The widgets of the prediction screen *)

Lemma shown_nil (w : world) : shown w [] = w.
Proof. destruct w. unfold shown. cbn. rewrite app_nil_r. reflexivity. Qed.

Lemma shown_app (w : world) (a b : list element) : shown (shown w a) b = shown w (a ++ b).
Proof. unfold shown. cbn. rewrite app_assoc. reflexivity. Qed.

(** The encoders leave the page alone. *)
Lemma encode_run (L : Lib) (col_le : string * pyval) (row : dict pyval) (w : world) :
  (exists row', encode L col_le row w = (Ret row', w)) \/
  (exists e, encode L col_le row w = (Raise e, w)).
Proof.
  unfold encode. destruct (Py.mem (fst col_le) row).
  - unfold St.bind, St.call, St.ret.
    destruct (transform L (snd col_le) (PStr (str L (Py.get (fst col_le) PNone row)))) as [v | e].
    + left. eexists. reflexivity.
    + right. exists e. reflexivity.
  - left. exists row. reflexivity.
Qed.

Lemma encode_loop_run (L : Lib) (encs : dict pyval) :
  forall (row : dict pyval) (w : world),
  (exists row', for_each encs row (encode L) w = (Ret row', w)) \/
  (exists e, for_each encs row (encode L) w = (Raise e, w)).
Proof.
  induction encs as [| col_le rest IH]; intros row w.
  - left. exists row. reflexivity.
  - cbn [for_each].
    destruct (encode_run L col_le row w) as [[row' Hr] | [e He]].
    + rewrite (bind_ret _ _ _ _ _ Hr). apply IH.
    + right. exists e. apply bind_raise. exact He.
Qed.

(** Lines 225-251 end normally whatever the encoders and the classifier
    do, and only add to the page. *)
Lemma predict_appends (L : Lib) (g : bundle) (user_input : dict pyval) (w : world) :
  exists els, predict L g user_input w = (Ret tt, shown w els).
Proof.
  unfold predict, try_except, try_catch, St.bind at 1.
  destruct (encode_loop_run L (encoders g) user_input w) as [[row Hrow] | [e He]].
  - rewrite Hrow. unfold St.bind at 1, St.call.
    destruct (predict_proba L (model g) row) as [proba | e].
    + eexists. unfold St.bind, emit, shown. st_norm. reflexivity.
    + eexists. unfold emit, shown. reflexivity.
  - rewrite He. eexists. unfold emit, shown. reflexivity.
Qed.


Example predict_high_risk :
  predict demo_with_model
          (mkbundle true (PObj "LogisticRegression") [("Smoker", PObj "LabelEncoder")]
                    ["Age"; "Smoker"] [])
          [("Age", PFloat (float_of_Z 61)); ("Smoker", PStr "yes")] empty_world =
  (Ret tt, mkworld None [PlotlyChart (gauge (float_of_Z 85)); Error "Risque élevé (85.0%)"]).
Proof. reflexivity. Qed.

(** ** The numeric input without statistics *)

(** What the widget answers to integer bounds with a float default. *)
Lemma mixed_fallback :
  Widget.argument_error (PInt 0) (PInt 1) (PFloat (float_lit 5 10)) =
  Some (mkexn StreamlitMixedNumericTypesError "All numerical arguments must be of the same type.").
Proof. reflexivity. Qed.

Lemma number_input_refused (inp : inputs) (label : string) (a b c : pyval) (e : exn) (w : world) :
  Widget.argument_error a b c = Some e -> number_input inp label a b c w = (Raise e, w).
Proof. intros H. unfold number_input. rewrite H. reflexivity. Qed.

(** The widget either raises, leaving the page as it is, or goes on the
    page and returns. *)
Lemma number_input_cases (inp : inputs) (label : string) (a b c : pyval) (w : world) :
  (exists e, number_input inp label a b c w = (Raise e, w)) \/
  number_input inp label a b c w =
    (Ret (Widget.returned a b c (entered inp label)), shown w [NumberInput label a b c]).
Proof.
  unfold number_input. destruct (Widget.argument_error a b c) as [e |].
  - left. exists e. reflexivity.
  - destruct (existsb (Widget.twin label a b c) (page w)).
    + left. eexists. reflexivity.
    + right. reflexivity.
Qed.

(** One turn of the loop of lines 216-222 either raises in its widget or
    puts the widget on the page and records what it returns. *)
Lemma feature_input_cases (inp : inputs) (STATS : dict (dict pyval)) (feat : string)
      (user_input : dict pyval) (w : world) :
  (exists e, feature_input inp STATS feat user_input w = (Raise e, w)) \/
  (exists v, feature_input inp STATS feat user_input w =
             (Ret (Py.set feat v user_input), shown w [feature_widget STATS feat])).
Proof.
  unfold feature_input, feature_widget, categorical.
  destruct (eq_str (Py.get "type" PNone (Py.get feat [] STATS)) "categorical").
  - right. eexists. reflexivity.
  - match goal with
    | |- context [ number_input inp feat ?a ?b ?c ] =>
        destruct (number_input_cases inp feat a b c w) as [[e He] | Hr]
    end.
    + left. exists e. apply bind_raise. exact He.
    + right. eexists. rewrite (bind_ret _ _ _ _ _ Hr). reflexivity.
Qed.

(** A feature that is not categorical and whose record, if any, has none of
    [min], [max] and [mean], stops the loop in its widget. *)
Lemma feature_input_fallback (inp : inputs) (STATS : dict (dict pyval)) (feat : string)
      (user_input : dict pyval) (w : world) :
  categorical STATS feat = false ->
  Py.lookup "min" (Py.get feat [] STATS) = None ->
  Py.lookup "max" (Py.get feat [] STATS) = None ->
  Py.lookup "mean" (Py.get feat [] STATS) = None ->
  feature_input inp STATS feat user_input w =
  (Raise (mkexn StreamlitMixedNumericTypesError "All numerical arguments must be of the same type."), w).
Proof.
  intros Hc Hmin Hmax Hmean. unfold feature_input. unfold categorical in Hc. rewrite Hc.
  unfold Py.get at 1 3 5. rewrite Hmin, Hmax, Hmean.
  apply bind_raise. apply number_input_refused. exact mixed_fallback.
Qed.

Lemma feature_loop_stops_at_fallback (inp : inputs) (STATS : dict (dict pyval)) (feat : string)
      (features : list string) :
  categorical STATS feat = false ->
  Py.lookup "min" (Py.get feat [] STATS) = None ->
  Py.lookup "max" (Py.get feat [] STATS) = None ->
  Py.lookup "mean" (Py.get feat [] STATS) = None ->
  In feat features ->
  forall (user_input : dict pyval) (w : world),
  exists e shown_first,
    for_each features user_input (feature_input inp STATS) w =
      (Raise e, shown w (map (feature_widget STATS) shown_first)) /\
    ~ In feat shown_first.
Proof.
  intros Hc Hmin Hmax Hmean.
  induction features as [| f rest IH]; intros Hin user_input w; [contradiction |].
  cbn [for_each].
  destruct (string_dec f feat) as [-> | Hne].
  - eexists. exists []. split; [| intros []].
    rewrite (bind_raise _ _ _ _ _ (feature_input_fallback inp STATS feat user_input w
                                     Hc Hmin Hmax Hmean)).
    cbn [map]. rewrite shown_nil. reflexivity.
  - destruct (feature_input_cases inp STATS f user_input w) as [[e He] | [v Hv]].
    + exists e, []. split; [| intros []].
      rewrite (bind_raise _ _ _ _ _ He). cbn [map]. rewrite shown_nil. reflexivity.
    + destruct Hin as [Hin | Hin]; [congruence |].
      destruct (IH Hin (Py.set f v user_input) (shown w [feature_widget STATS f]))
        as [e [first [Hrun Hfirst]]].
      exists e, (f :: first). split.
      * rewrite (bind_ret _ _ _ _ _ Hv), Hrun, shown_app. reflexivity.
      * intros [H | H]; [congruence | contradiction].
Qed.

(** C10.  The fallback bounds do not give a numeric input.  For a feature
    of the loaded list that is not marked categorical and whose record has
    none of [min], [max] and [mean] (in particular a feature without a
    record), the script calls [st.number_input(feat, 0, 1, 0.5)], integer
    bounds with a float default, which the widget refuses: the prediction
    screen ends with an exception that nothing catches, the loop being
    outside the [try]; the page holds widgets of earlier features at most,
    neither the numeric input of this feature nor the button.  When the
    feature is the first of the list, the exception is Streamlit's refusal
    of mixed numeric types and the page holds the header and the invitation
    only. *)
Theorem fallback_number_input_raises
  (L : Lib) (inp : inputs) (g : bundle) (w : world) (feat : string) :
  model_loaded g = true ->
  In feat (FEATURES g) ->
  categorical (STATS g) feat = false ->
  Py.lookup "min" (Py.get feat [] (STATS g)) = None ->
  Py.lookup "max" (Py.get feat [] (STATS g)) = None ->
  Py.lookup "mean" (Py.get feat [] (STATS g)) = None ->
  let opening := [Header "🔮 Prédiction du risque de diabète";
                  Write "### Entrez les valeurs pour prédire le risque :"] in
  (exists e shown_first,
     prediction_screen L inp g w =
       (Raise e, shown w (opening ++ map (feature_widget (STATS g)) shown_first)) /\
     ~ In feat shown_first) /\
  feature_widget (STATS g) feat = NumberInput feat (PInt 0) (PInt 1) (PFloat (float_lit 5 10)) /\
  (forall rest, FEATURES g = feat :: rest ->
     prediction_screen L inp g w =
     (Raise (mkexn StreamlitMixedNumericTypesError
                   "All numerical arguments must be of the same type."),
      shown w opening)).
Proof.
  intros Hg Hin Hc Hmin Hmax Hmean opening.
  assert (Hstart :
            prediction_screen L inp g w =
            St.bind (for_each (FEATURES g) [] (feature_input inp (STATS g)))
                    (fun user_input =>
                       St.bind (button inp "🔮 Prédire")
                               (fun pressed => if pressed then predict L g user_input else St.ret tt))
                    (shown w opening)).
  { unfold prediction_screen.
    rewrite (bind_ret _ _ _ _ _ (emit_run _ _)), Hg. cbn [negb].
    rewrite (bind_ret _ _ _ _ _ (ret_run tt _)).
    rewrite (bind_ret _ _ _ _ _ (emit_run _ _)), shown_app. reflexivity. }
  split; [| split].
  - destruct (feature_loop_stops_at_fallback inp (STATS g) feat (FEATURES g)
                Hc Hmin Hmax Hmean Hin [] (shown w opening)) as [e [first [Hrun Hfirst]]].
    exists e, first. split; [| exact Hfirst].
    rewrite Hstart, (bind_raise _ _ _ _ _ Hrun), shown_app. reflexivity.
  - unfold feature_widget. rewrite Hc. unfold Py.get at 1 3 5.
    rewrite Hmin, Hmax, Hmean. reflexivity.
  - intros rest Hf. rewrite Hstart, Hf. cbn [for_each].
    rewrite (bind_raise _ _ _ _ _
               (bind_raise _ _ _ _ _
                  (feature_input_fallback inp (STATS g) feat [] _ Hc Hmin Hmax Hmean))).
    reflexivity.
Qed.

Lemma fallback_number_input_raises_witness :
  prediction_screen demo_with_model (picks 4 None (fun _ => 0%nat) false)
    (mkbundle true (PObj "LogisticRegression") [] ["Glucose"] []) empty_world =
  (Raise (mkexn StreamlitMixedNumericTypesError "All numerical arguments must be of the same type."),
   mkworld None [Header "🔮 Prédiction du risque de diabète";
                 Write "### Entrez les valeurs pour prédire le risque :"]).
Proof.
  exact (proj2 (proj2
           (fallback_number_input_raises demo_with_model (picks 4 None (fun _ => 0%nat) false)
              (mkbundle true (PObj "LogisticRegression") [] ["Glucose"] []) empty_world "Glucose"
              eq_refl (or_introl eq_refl) eq_refl eq_refl eq_refl eq_refl))
         [] eq_refl).
Defined.

(* ===================================================================== *)
(** * The rest of the script *)
(* ===================================================================== *)

(** ** Where the session is written *)

Lemma keeps_ret {A} (a : A) : keeps_session (St.ret a).
Proof. intros w. reflexivity. Qed.

Lemma keeps_emit (el : element) : keeps_session (emit el).
Proof. intros w. reflexivity. Qed.

Lemma keeps_call {A} (r : result A) : keeps_session (St.call r).
Proof. intros w. destruct r; reflexivity. Qed.

Lemma keeps_raise {A} (e : exn) : keeps_session (@St.raise A e).
Proof. intros w. reflexivity. Qed.

Lemma keeps_stop {A} : keeps_session (@St.stop A).
Proof. intros w. reflexivity. Qed.

Lemma keeps_session_get : keeps_session session_get.
Proof. intros w. reflexivity. Qed.

Lemma keeps_bind {A B} (c : St A) (k : A -> St B) :
  keeps_session c -> (forall a, keeps_session (k a)) -> keeps_session (St.bind c k).
Proof.
  intros Hc Hk w. unfold St.bind. specialize (Hc w).
  destruct (c w) as [[a | e |] w']; cbn [snd] in *.
  - rewrite (Hk a w'). exact Hc.
  - exact Hc.
  - exact Hc.
Qed.

Lemma keeps_try_catch {A} (catches : exn -> bool) (body : St A) (handler : exn -> St A) :
  keeps_session body -> (forall e, keeps_session (handler e)) ->
  keeps_session (try_catch catches body handler).
Proof.
  intros Hb Hh w. unfold try_catch. specialize (Hb w).
  destruct (body w) as [[a | e |] w']; cbn [snd] in *; try exact Hb.
  destruct (catches e); [rewrite (Hh e w') |]; exact Hb.
Qed.

Lemma keeps_for_each {A B} (body : A -> B -> St B) (xs : list A) :
  (forall x acc, keeps_session (body x acc)) ->
  forall acc, keeps_session (for_each xs acc body).
Proof.
  intros Hb. induction xs as [| x xs IH]; intros acc; cbn [for_each].
  - apply keeps_ret.
  - apply keeps_bind; [apply Hb | intros acc'; apply IH].
Qed.

Lemma keeps_number_input (inp : inputs) (label : string) (a b c : pyval) :
  keeps_session (number_input inp label a b c).
Proof.
  intros w. unfold number_input. destruct (Widget.argument_error a b c); [reflexivity |].
  destruct (existsb (Widget.twin label a b c) (page w)); reflexivity.
Qed.

Ltac keeps :=
  repeat first
    [ apply keeps_ret | apply keeps_emit | apply keeps_call | apply keeps_raise
    | apply keeps_stop | apply keeps_session_get
    | apply keeps_bind; [| intros ?]
    | apply keeps_try_catch; [| intros ?]
    | apply keeps_for_each; intros ? ?
    | match goal with
      | |- keeps_session (if ?b then _ else _) => destruct b
      | |- keeps_session (match ?x with _ => _ end) => destruct x
      end ].

Lemma home_keeps_session : keeps_session home_screen.
Proof. unfold home_screen. keeps. Qed.

Lemma build_chart_keeps_session (L : Lib) (df : dataframe) (x y t : pyval) (c : string) :
  keeps_session (build_chart L df x y t c).
Proof. unfold build_chart. keeps. Qed.

Lemma visualisation_keeps_session (L : Lib) (inp : inputs) :
  keeps_session (visualisation_screen L inp).
Proof.
  unfold visualisation_screen, selectbox, color_picker.
  keeps. apply build_chart_keeps_session.
Qed.

Lemma tests_keeps_session (L : Lib) (inp : inputs) : keeps_session (tests_screen L inp).
Proof.
  unfold tests_screen, selectbox, button, execute_test, try_except, run_test. keeps.
Qed.

Lemma prediction_keeps_session (L : Lib) (inp : inputs) (g : bundle) :
  keeps_session (prediction_screen L inp g).
Proof.
  unfold prediction_screen, button, predict, try_except, feature_input, encode, selectbox.
  keeps. apply keeps_number_input.
Qed.

Lemma load_model_keeps_session (L : Lib) : keeps_session (load_model L).
Proof. unfold load_model, subscript. keeps. Qed.

(** ** The loader and the router *)

(** The loader never touches the world, and never stops the run. *)
Lemma load_model_cases (L : Lib) (w : world) :
  (exists g, load_model L w = (Ret g, w)) \/ (exists e, load_model L w = (Raise e, w)).
Proof.
  unfold load_model, try_catch, St.bind, St.call, St.ret, subscript, St.raise.
  destruct (joblib_load L MODEL_FILE) as [p | e].
  - destruct (payload_model p); [| cbn; right; eexists; reflexivity].
    destruct (payload_features p); [| cbn; right; eexists; reflexivity].
    destruct (payload_stats p); [| cbn; right; eexists; reflexivity].
    left. eexists. reflexivity.
  - destruct (is_FileNotFoundError e); [left | right]; eexists; reflexivity.
Qed.

(** X1.  An artifact that joblib reads but that lacks the key [model],
    [features] or [stats] makes the loader raise [KeyError] with the name of
    the first missing key, in that order; nothing catches it.  A missing
    [encoders] key is no error. *)
Theorem loader_missing_key (L : Lib) (w : world) (p : payload) :
  joblib_load L "model.pkl" = Ok p ->
  (payload_model p = None -> load_model L w = (Raise (mkexn KeyError "'model'"), w)) /\
  (payload_model p <> None -> payload_features p = None ->
   load_model L w = (Raise (mkexn KeyError "'features'"), w)) /\
  (payload_model p <> None -> payload_features p <> None -> payload_stats p = None ->
   load_model L w = (Raise (mkexn KeyError "'stats'"), w)) /\
  (payload_model p <> None -> payload_features p <> None -> payload_stats p <> None ->
   exists g, load_model L w = (Ret g, w) /\ model_loaded g = true /\
             (payload_encoders p = None -> encoders g = [])).
Proof.
  intros Hl.
  unfold load_model, try_catch, St.bind, St.call, St.ret, subscript, St.raise, MODEL_FILE.
  rewrite Hl.
  destruct (payload_model p) as [m |]; destruct (payload_features p) as [fs |];
    destruct (payload_stats p) as [st |]; cbn; repeat split; intros; try congruence.
  eexists. split; [reflexivity |]. split; [reflexivity |].
  intros He. cbn. rewrite He. reflexivity.
Qed.

Lemma loader_missing_key_witness :
  load_model (with_artifact demo (Ok (mkpayload (Some (PObj "m")) None None (Some []))))
             empty_world = (Raise (mkexn KeyError "'features'"), empty_world).
Proof.
  exact (proj1 (proj2 (loader_missing_key
           (with_artifact demo (Ok (mkpayload (Some (PObj "m")) None None (Some []))))
           empty_world (mkpayload (Some (PObj "m")) None None (Some [])) eq_refl))
         ltac:(discriminate) eq_refl).
Defined.

(** X2.  When joblib raises anything but [FileNotFoundError], the script ends
    with that exception whatever screen is selected: the page holds the page
    configuration and the style only, not even the navigation, and the
    session is what it was. *)
Theorem unreadable_artifact_aborts_every_screen
  (L : Lib) (inp : inputs) (s : option dataframe) (e : exn) :
  joblib_load L "model.pkl" = Fail e ->
  is_FileNotFoundError e = false ->
  render L inp s =
  (Raise e, mkworld s [PageConfig "TTK_StatTestIA" "💙" "wide"; Markdown style]).
Proof.
  intros Hl He. unfold render, app.
  rewrite (bind_ret _ _ _ _ _ (emit_run _ _)), (bind_ret _ _ _ _ _ (emit_run _ _)).
  apply bind_raise.
  unfold load_model, try_catch, St.bind, St.call, MODEL_FILE. rewrite Hl, He. reflexivity.
Qed.

Lemma unreadable_artifact_aborts_every_screen_witness :
  render (with_artifact demo (Fail corrupt)) (picks 0 None (fun _ => 0%nat) false) (Some diabetes) =
  (Raise corrupt, mkworld (Some diabetes) [PageConfig "TTK_StatTestIA" "💙" "wide"; Markdown style]).
Proof.
  exact (unreadable_artifact_aborts_every_screen (with_artifact demo (Fail corrupt))
           (picks 0 None (fun _ => 0%nat) false) (Some diabetes) corrupt eq_refl eq_refl).
Defined.

(** What the loader answers does not depend on the page or the session. *)
Lemma load_model_any_world (L : Lib) (w w' : world) (o : outcome bundle) :
  load_model L w = (o, w) -> load_model L w' = (o, w').
Proof.
  unfold load_model, try_catch, St.bind, St.call, St.ret, subscript, St.raise.
  destruct (joblib_load L MODEL_FILE) as [p | e].
  - destruct (payload_model p); [| cbn; intros H; injection H as <-; reflexivity].
    destruct (payload_features p); [| cbn; intros H; injection H as <-; reflexivity].
    destruct (payload_stats p); cbn; intros H; injection H as <-; reflexivity.
  - destruct (is_FileNotFoundError e); intros H; injection H as <-; reflexivity.
Qed.

Lemma app_dispatch (L : Lib) (inp : inputs) (w : world) (g : bundle) :
  load_model L w = (Ret g, w) ->
  app L inp w = screen_at (radio inp) L inp g (shown w prelude).
Proof.
  intros Hl. unfold app.
  rewrite (bind_ret _ _ _ _ _ (emit_run _ _)), (bind_ret _ _ _ _ _ (emit_run _ _)).
  rewrite shown_app. cbn [app].
  rewrite (bind_ret _ _ _ _ _ (load_model_any_world L w _ _ Hl)).
  rewrite (bind_ret _ _ _ _ _ (emit_run _ _)).
  unfold sidebar_radio.
  rewrite (bind_ret _ _ _ _ _ (bind_ret _ _ _ _ _ (emit_run _ _))).
  rewrite !shown_app. cbn [app]. fold prelude.
  destruct (radio inp) as [| [| [| [| [| n]]]]]; try reflexivity.
  destruct n; reflexivity.
Qed.

(** X3.  Once the loader has returned, one run shows the navigation and then
    exactly the screen behind the selected entry: the five labels are told
    apart by the chain of comparisons, and no screen runs for an index past
    the last entry. *)
Theorem router_runs_selected_screen (L : Lib) (inp : inputs) (w : world) (g : bundle) :
  load_model L w = (Ret g, w) ->
  app L inp w = screen_at (radio inp) L inp g (shown w prelude).
Proof.
  intros Hl. unfold app.
  rewrite (bind_ret _ _ _ _ _ (emit_run _ _)), (bind_ret _ _ _ _ _ (emit_run _ _)).
  rewrite shown_app. cbn [app].
  rewrite (bind_ret _ _ _ _ _ (load_model_any_world L w _ _ Hl)).
  rewrite (bind_ret _ _ _ _ _ (emit_run _ _)).
  unfold sidebar_radio.
  rewrite (bind_ret _ _ _ _ _ (bind_ret _ _ _ _ _ (emit_run _ _))).
  rewrite !shown_app. cbn [app]. fold prelude.
  destruct (radio inp) as [| [| [| [| [| n]]]]]; try reflexivity.
  destruct n; reflexivity.
Qed.

Lemma router_runs_selected_screen_witness :
  app demo (picks 3 None (fun _ => 0%nat) false) empty_world =
  tests_screen demo (picks 3 None (fun _ => 0%nat) false) (shown empty_world prelude).
Proof.
  exact (router_runs_selected_screen demo (picks 3 None (fun _ => 0%nat) false) empty_world
           (mkbundle false PNone [] [] []) eq_refl).
Defined.

Lemma screen_keeps_session (i : nat) (L : Lib) (inp : inputs) (g : bundle) :
  i <> 1%nat -> keeps_session (screen_at i L inp g).
Proof.
  intros Hi. destruct i as [| [| [| [| [| n]]]]]; cbn [screen_at]; try congruence.
  - apply home_keeps_session.
  - apply visualisation_keeps_session.
  - apply tests_keeps_session.
  - apply prediction_keeps_session.
  - apply keeps_ret.
Qed.

(** X4.  Only the import screen writes the session: on every other entry of
    the navigation the run leaves the session as it was, however the run
    ends and whatever the libraries answer. *)
Theorem only_import_writes_session (L : Lib) (inp : inputs) (s : option dataframe) :
  radio inp <> 1%nat ->
  session_df (snd (render L inp s)) = s.
Proof.
  intros Hi. unfold render.
  destruct (load_model_cases L (mkworld s [])) as [[g Hg] | [e He]].
  - rewrite (app_dispatch L inp _ g Hg).
    rewrite (screen_keeps_session (radio inp) L inp g Hi). reflexivity.
  - unfold app.
    rewrite (bind_ret _ _ _ _ _ (emit_run _ _)), (bind_ret _ _ _ _ _ (emit_run _ _)).
    rewrite (bind_raise _ _ _ _ _ (load_model_any_world L _ _ _ He)). reflexivity.
Qed.

Lemma only_import_writes_session_witness :
  session_df (snd (render strict (picks 2 None (scatter_of 0 2) false) (Some diabetes))) =
  Some diabetes.
Proof.
  exact (only_import_writes_session strict (picks 2 None (scatter_of 0 2) false) (Some diabetes)
           ltac:(discriminate)).
Defined.

(** X5.  The artifact matters to the prediction screen only: two libraries
    that differ in what joblib answers, and whose loader returns in both,
    give the same run on every other entry of the navigation. *)
Theorem other_screens_ignore_artifact
  (L : Lib) (a1 a2 : result payload) (inp : inputs) (s : option dataframe) (g1 g2 : bundle) :
  load_model (with_artifact L a1) empty_world = (Ret g1, empty_world) ->
  load_model (with_artifact L a2) empty_world = (Ret g2, empty_world) ->
  radio inp <> 4%nat ->
  render (with_artifact L a1) inp s = render (with_artifact L a2) inp s.
Proof.
  intros H1 H2 Hi. unfold render.
  rewrite (app_dispatch _ inp _ g1 (load_model_any_world _ _ _ _ H1)).
  rewrite (app_dispatch _ inp _ g2 (load_model_any_world _ _ _ _ H2)).
  destruct (radio inp) as [| [| [| [| [| n]]]]]; try reflexivity. congruence.
Qed.

Lemma other_screens_ignore_artifact_witness :
  render (with_artifact demo (Fail missing)) (picks 3 None (fun _ => 0%nat) true) (Some diabetes) =
  render (with_artifact demo (Ok artifact)) (picks 3 None (fun _ => 0%nat) true) (Some diabetes).
Proof.
  exact (other_screens_ignore_artifact demo (Fail missing) (Ok artifact)
           (picks 3 None (fun _ => 0%nat) true) (Some diabetes) _ _ eq_refl eq_refl
           ltac:(discriminate)).
Defined.

(** ** Screens without their data *)

(** X6.  Before any import the visualisation screen shows its header and one
    warning and ends normally: no selector is drawn and no library is
    called. *)
Theorem visualisation_needs_dataset (L : Lib) (inp : inputs) (w : world) :
  session_df w = None ->
  visualisation_screen L inp w =
  (Ret tt, shown w [Header "📊 Visualisation interactive des données";
                    Warning "⚠️ Importez d'abord un fichier de données."]).
Proof.
  destruct w as [s pg]. cbn [session_df]. intros ->.
  unfold visualisation_screen, St.bind, emit, session_get, shown. st_norm. reflexivity.
Qed.

Lemma visualisation_needs_dataset_witness :
  visualisation_screen strict (picks 2 None (scatter_of 0 2) true) empty_world =
  (Ret tt, mkworld None [Header "📊 Visualisation interactive des données";
                         Warning "⚠️ Importez d'abord un fichier de données."]).
Proof.
  exact (visualisation_needs_dataset strict (picks 2 None (scatter_of 0 2) true) empty_world
           eq_refl).
Defined.

(** X7.  The test screen asks for a table, then for two numeric columns:
    without a table, or with a table of fewer than two numeric columns, it
    shows its header and the matching warning and ends normally, with no
    selector and no button, whatever the user has pressed. *)
Theorem tests_need_two_numeric_columns (L : Lib) (inp : inputs) (w : world) :
  (session_df w = None ->
   tests_screen L inp w =
   (Ret tt, shown w [Header "🧪 Tests non paramétriques"; Warning "Importez d'abord des données."])) /\
  (forall df, session_df w = Some df -> (List.length (numeric_columns df) < 2)%nat ->
   tests_screen L inp w =
   (Ret tt, shown w [Header "🧪 Tests non paramétriques";
                     Warning "Besoin d'au moins deux colonnes numériques."])).
Proof.
  destruct w as [s pg]. cbn [session_df]. split.
  - intros ->. unfold tests_screen, St.bind, emit, session_get, shown. st_norm. reflexivity.
  - intros df -> Hn. unfold tests_screen, St.bind at 1, emit at 1, St.bind at 1, session_get.
    cbn [session_df page].
    destruct (Nat.ltb_spec (List.length (numeric_columns df)) 2) as [_ | Hge]; [| lia].
    unfold emit, shown. st_norm. reflexivity.
Qed.

Lemma tests_need_two_numeric_columns_witness :
  tests_screen strict (picks 3 None (fun _ => 0%nat) true) (mkworld (Some mixed) []) =
  (Ret tt, mkworld (Some mixed) [Header "🧪 Tests non paramétriques";
                                 Warning "Besoin d'au moins deux colonnes numériques."]).
Proof.
  exact (proj2 (tests_need_two_numeric_columns strict (picks 3 None (fun _ => 0%nat) true)
                  (mkworld (Some mixed) [])) mixed eq_refl (le_n 2)).
Defined.

(** X8.  Until the button is pressed the test screen only shows its widgets:
    the run ends normally and is the same for every library, so no routine
    has been consulted. *)
Theorem tests_wait_for_button (L : Lib) (inp : inputs) (df : dataframe) (w : world) :
  session_df w = Some df ->
  (2 <= List.length (numeric_columns df))%nat ->
  clicked inp "Exécuter le test" = false ->
  tests_screen L inp w = (Ret tt, shown w (tests_widgets df)).
Proof.
  destruct w as [s pg]. cbn [session_df]. intros Hs Hn Hc. subst s.
  unfold tests_screen, St.bind at 1, emit at 1, St.bind at 1, session_get.
  cbn [session_df page].
  destruct (Nat.ltb_spec (List.length (numeric_columns df)) 2) as [Hlt | _]; [lia |].
  unfold selectbox, button, St.bind, emit, St.ret. cbn [session_df page].
  rewrite Hc. unfold shown, tests_widgets. st_norm. reflexivity.
Qed.

Lemma tests_wait_for_button_witness :
  tests_screen strict (picks 3 None (fun _ => 0%nat) false) (mkworld (Some diabetes) []) =
  (Ret tt, mkworld (Some diabetes) (tests_widgets diabetes)).
Proof.
  exact (tests_wait_for_button strict (picks 3 None (fun _ => 0%nat) false) diabetes
           (mkworld (Some diabetes) []) eq_refl (le_n 2) eq_refl).
Defined.

(** ** What the selectors offer *)





(** ** The charts *)

(** X10.  The histogram asks nothing of pandas and nothing of Y: with a table
    in the session it always ends normally, drawing the chart of X in 20
    bins with the chosen colour and showing its fixed sentence. *)
Theorem histogram_always_drawn (L : Lib) (inp : inputs) (df : dataframe) (w : world) :
  session_df w = Some df ->
  chosen inp "Type de graphique" (map PStr chart_options) = PStr "Histogramme" ->
  let xcol := chosen inp "Variable X" (map PStr (columns df)) in
  let c := match color inp with Some c => c | None => "#0E6BA8" end in
  visualisation_screen L inp w =
  (Ret tt,
   shown w (chart_widgets df ++
            [PlotlyChart (Histogram xcol 20 c ("Histogramme de " ++ str L xcol));
             Info ("🧠 Interprétation : On observe la répartition de la variable **" ++ str L xcol
                   ++ "**. Si une barre domine, cela signifie que cette valeur est plus fréquente dans notre échantillon.")])).
Proof.
  intros Hs Hk xcol c. rewrite (visualisation_screen_chart L inp df w Hs), Hk.
  fold xcol. fold c. unfold build_chart.
  change (eq_str (PStr "Histogramme") "Histogramme") with true. cbv iota.
  rewrite (bind_ret _ _ _ _ _ (ret_run _ _)). cbn [fst snd].
  rewrite (bind_ret _ _ _ _ _ (emit_run _ _)), emit_run, !shown_app. reflexivity.
Qed.

Lemma histogram_always_drawn_witness :
  fst (visualisation_screen strict (picks 2 None (fun _ => 0%nat) false)
         (mkworld (Some diabetes) [])) = Ret tt.
Proof.
  exact (f_equal fst (histogram_always_drawn strict (picks 2 None (fun _ => 0%nat) false) diabetes
                        (mkworld (Some diabetes) []) eq_refl eq_refl)).
Defined.

(** X11.  Only the scatter plot reads Y: for every other chart kind the figure,
    the interpretation and the way the run ends are the same whatever the Y
    selector holds. *)
Theorem only_scatter_reads_y
  (L : Lib) (df : dataframe) (xcol ycol ycol' chart_type : pyval) (c : string) (w : world) :
  eq_str chart_type "Nuage de points" = false ->
  build_chart L df xcol ycol chart_type c w = build_chart L df xcol ycol' chart_type c w.
Proof.
  intros Hk. unfold build_chart.
  destruct (eq_str chart_type "Histogramme"); [reflexivity |].
  destruct (eq_str chart_type "Boîte à moustaches"); [reflexivity |].
  rewrite Hk. reflexivity.
Qed.

Lemma only_scatter_reads_y_witness :
  build_chart demo diabetes (PStr "Age") (PStr "Aucune") (PStr "Boîte à moustaches") "#0E6BA8"
              empty_world =
  build_chart demo diabetes (PStr "Age") (PStr "Glucose") (PStr "Boîte à moustaches") "#0E6BA8"
              empty_world.
Proof.
  exact (only_scatter_reads_y demo diabetes (PStr "Age") (PStr "Aucune") (PStr "Glucose")
           (PStr "Boîte à moustaches") "#0E6BA8" empty_world eq_refl).
Defined.

(** X12.  The visualisation screen has no handler of its own: when pandas
    raises while the box plot's quartiles or median, the scatter plot's
    correlation or the pie's counts are computed, the run ends with that
    exception and the page holds the selectors only, neither chart nor
    interpretation.  So does a pie of a column named Valeurs, whose table of
    counts gets two columns of that name and is refused by the chart
    library, and a pie of any other column over no value at all, whose
    first row does not exist. *)
Theorem chart_failure_is_not_caught
  (L : Lib) (inp : inputs) (df : dataframe) (w : world) (e : exn) :
  session_df w = Some df ->
  let xcol := chosen inp "Variable X" (map PStr (columns df)) in
  let ycol := chosen inp "Variable Y (optionnel)" (PStr "Aucune" :: map PStr (columns df)) in
  let kind := chosen inp "Type de graphique" (map PStr chart_options) in
  let failed := (Raise e, shown w (chart_widgets df)) in
  (kind = PStr "Boîte à moustaches" -> quantile L df xcol = Fail e ->
   visualisation_screen L inp w = failed) /\
  (forall qs, kind = PStr "Boîte à moustaches" -> quantile L df xcol = Ok qs ->
   median L df xcol = Fail e -> visualisation_screen L inp w = failed) /\
  (kind = PStr "Nuage de points" -> eq_str ycol "Aucune" = false ->
   corr L df xcol ycol = Fail e -> visualisation_screen L inp w = failed) /\
  (kind = PStr "Diagramme circulaire" -> value_counts L df xcol = Fail e ->
   visualisation_screen L inp w = failed) /\
  (forall counts, kind = PStr "Diagramme circulaire" -> value_counts L df xcol = Ok counts ->
   eq_str xcol "Valeurs" = true ->
   exists e', exn_class_of e' = DuplicateError /\
              visualisation_screen L inp w = (Raise e', shown w (chart_widgets df))) /\
  (kind = PStr "Diagramme circulaire" -> value_counts L df xcol = Ok [] ->
   eq_str xcol "Valeurs" = false ->
   visualisation_screen L inp w =
   (Raise (mkexn IndexError "single positional indexer is out-of-bounds"),
    shown w (chart_widgets df))).
Proof.
  intros Hs xcol ycol kind failed.
  rewrite (visualisation_screen_chart L inp df w Hs). fold xcol ycol kind.
  repeat split.
  - intros Hk Hq. rewrite Hk. apply bind_raise. unfold build_chart.
    change (eq_str (PStr "Boîte à moustaches") "Histogramme") with false.
    change (eq_str (PStr "Boîte à moustaches") "Boîte à moustaches") with true. cbv iota.
    apply bind_raise. unfold St.call. rewrite Hq. reflexivity.
  - intros qs Hk Hq Hm. rewrite Hk. apply bind_raise. unfold build_chart.
    change (eq_str (PStr "Boîte à moustaches") "Histogramme") with false.
    change (eq_str (PStr "Boîte à moustaches") "Boîte à moustaches") with true. cbv iota.
    unfold St.bind, St.call. rewrite Hq, Hm. reflexivity.
  - intros Hk Hy Hc. rewrite Hk. apply bind_raise.
    rewrite (proj2 (scatter_guard L df xcol ycol _ _) Hy), Hc. reflexivity.
  - intros Hk Hv. rewrite Hk. apply bind_raise. unfold build_chart.
    change (eq_str (PStr "Diagramme circulaire") "Histogramme") with false.
    change (eq_str (PStr "Diagramme circulaire") "Boîte à moustaches") with false.
    change (eq_str (PStr "Diagramme circulaire") "Nuage de points") with false. cbv iota.
    apply bind_raise. unfold St.call. rewrite Hv. reflexivity.
  - intros counts Hk Hv Hx. eexists. split; [| rewrite Hk; apply bind_raise; unfold build_chart;
      change (eq_str (PStr "Diagramme circulaire") "Histogramme") with false;
      change (eq_str (PStr "Diagramme circulaire") "Boîte à moustaches") with false;
      change (eq_str (PStr "Diagramme circulaire") "Nuage de points") with false; cbv iota;
      unfold St.bind, St.call, St.raise; rewrite Hv, Hx; reflexivity].
    reflexivity.
  - intros Hk Hv Hx. rewrite Hk. apply bind_raise. unfold build_chart.
    change (eq_str (PStr "Diagramme circulaire") "Histogramme") with false.
    change (eq_str (PStr "Diagramme circulaire") "Boîte à moustaches") with false.
    change (eq_str (PStr "Diagramme circulaire") "Nuage de points") with false. cbv iota.
    unfold St.bind, St.call, St.raise, St.ret. rewrite Hv, Hx. reflexivity.
Qed.

Lemma chart_failure_is_not_caught_witness :
  visualisation_screen strict (picks 2 None (scatter_of 0 2) false) (mkworld (Some diabetes) []) =
  (Raise not_numeric, mkworld (Some diabetes) (chart_widgets diabetes)).
Proof.
  exact (proj1 (proj2 (proj2
           (chart_failure_is_not_caught strict (picks 2 None (scatter_of 0 2) false) diabetes
              (mkworld (Some diabetes) []) not_numeric eq_refl)))
         eq_refl eq_refl eq_refl).
Defined.

(** ** Dictionaries *)

Lemma lookup_set_same {A} (k : string) (v : A) (d : dict A) :
  Py.lookup k (Py.set k v d) = Some v.
Proof.
  induction d as [| [k' v'] d IH]; cbn.
  - rewrite String.eqb_refl. reflexivity.
  - destruct (String.eqb k k') eqn:E; cbn; rewrite ?String.eqb_refl, ?E; auto.
Qed.

Lemma lookup_set_other {A} (k k' : string) (v : A) (d : dict A) :
  k' <> k -> Py.lookup k' (Py.set k v d) = Py.lookup k' d.
Proof.
  intros Hne. apply String.eqb_neq in Hne.
  induction d as [| [k0 v0] d IH]; cbn.
  - rewrite Hne. reflexivity.
  - destruct (String.eqb k k0) eqn:E; cbn.
    + apply String.eqb_eq in E. subst k0. rewrite Hne. reflexivity.
    + destruct (String.eqb k' k0); auto.
Qed.

Lemma mem_In_keys {A} (k : string) (d : dict A) : Py.mem k d = true <-> In k (Py.keys d).
Proof.
  unfold Py.mem, Py.keys. induction d as [| [k' v'] d IH]; cbn.
  - split; [discriminate | contradiction].
  - destruct (String.eqb k k') eqn:E.
    + apply String.eqb_eq in E. split; auto.
    + apply String.eqb_neq in E. rewrite IH. split; [auto | intros [H | H]; [congruence | assumption]].
Qed.

(** Assigning to a key that is there keeps the keys and their order. *)
Lemma keys_set_present {A} (k : string) (v : A) (d : dict A) :
  Py.mem k d = true -> Py.keys (Py.set k v d) = Py.keys d.
Proof.
  unfold Py.mem, Py.keys. induction d as [| [k' v'] d IH]; cbn; [discriminate |].
  destruct (String.eqb k k') eqn:E; cbn.
  - apply String.eqb_eq in E. subst k'. reflexivity.
  - intros H. rewrite (IH H). reflexivity.
Qed.

(** Assigning to a new key puts it last. *)
Lemma keys_set_absent {A} (k : string) (v : A) (d : dict A) :
  Py.mem k d = false -> Py.keys (Py.set k v d) = (Py.keys d ++ [k])%list.
Proof.
  unfold Py.mem, Py.keys. induction d as [| [k' v'] d IH]; cbn; [reflexivity |].
  destruct (String.eqb k k') eqn:E; cbn; [discriminate |].
  intros H. rewrite (IH H). reflexivity.
Qed.

Lemma In_keys_set {A} (k k' : string) (v : A) (d : dict A) :
  In k' (Py.keys (Py.set k v d)) <-> k' = k \/ In k' (Py.keys d).
Proof.
  destruct (Py.mem k d) eqn:E.
  - rewrite (keys_set_present k v d E). apply mem_In_keys in E.
    split; [auto | intros [-> | H]; assumption].
  - rewrite (keys_set_absent k v d E), in_app_iff. cbn. intuition.
Qed.

Lemma NoDup_keys_set {A} (k : string) (v : A) (d : dict A) :
  NoDup (Py.keys d) -> NoDup (Py.keys (Py.set k v d)).
Proof.
  intros Hd. destruct (Py.mem k d) eqn:E.
  - rewrite (keys_set_present k v d E). exact Hd.
  - rewrite (keys_set_absent k v d E).
    apply NoDup_app; [exact Hd | repeat constructor; intros [] | ].
    intros x Hx [<- | []]. apply mem_In_keys in Hx. congruence.
Qed.

(** ** The prediction *)

(** X13.  The encoders change values, never columns: when the loop of lines
    227-229 ends, the one-row frame has the columns it had, in the same
    order, and every column without a registered encoder holds the value it
    held; an encoder registered for a column the frame lacks adds nothing. *)
Theorem encoders_keep_columns (L : Lib) (encs : dict pyval) :
  forall (row row' : dict pyval) (w w' : world),
  for_each encs row (encode L) w = (Ret row', w') ->
  Py.keys row' = Py.keys row /\
  (forall col, ~ In col (Py.keys encs) -> Py.lookup col row' = Py.lookup col row).
Proof.
  induction encs as [| [col le] rest IH]; intros row row' w w' Hrun.
  - cbn in Hrun. injection Hrun as <- _. split; [reflexivity | intros; reflexivity].
  - cbn [for_each] in Hrun. unfold St.bind at 1 in Hrun. unfold encode at 1 in Hrun.
    cbn [fst snd] in Hrun.
    destruct (Py.mem col row) eqn:Em.
    + unfold St.bind at 1, St.call in Hrun.
      destruct (transform L le (PStr (str L (Py.get col PNone row)))) as [v | e]; [| discriminate].
      cbn in Hrun. apply IH in Hrun. destruct Hrun as [Hk Hv]. split.
      * rewrite Hk. apply keys_set_present. exact Em.
      * intros c Hc. unfold Py.keys in *. cbn in Hc. rewrite Hv by tauto.
        apply lookup_set_other. intros ->. tauto.
    + cbn in Hrun. apply IH in Hrun. destruct Hrun as [Hk Hv]. split; [exact Hk |].
      intros c Hc. unfold Py.keys in *. cbn in Hc. apply Hv. tauto.
Qed.

Lemma encoders_keep_columns_witness :
  Py.keys [("Age", PFloat (float_of_Z 61)); ("Smoker", PInt 1)] = ["Age"; "Smoker"] /\
  Py.lookup "Age" [("Age", PFloat (float_of_Z 61)); ("Smoker", PInt 1)] =
  Some (PFloat (float_of_Z 61)).
Proof.
  destruct (encoders_keep_columns demo [("Smoker", PObj "LabelEncoder"); ("Sex", PObj "LabelEncoder")]
              [("Age", PFloat (float_of_Z 61)); ("Smoker", PStr "yes")]
              [("Age", PFloat (float_of_Z 61)); ("Smoker", PInt 1)]
              empty_world empty_world eq_refl) as [Hk Hv].
  split; [exact Hk |].
  rewrite (Hv "Age"); [reflexivity |].
  cbn. intros [H | [H | []]]; discriminate.
Defined.


(** ** The input vector *)

(** One turn of the loop that returns has put the widget of the feature on
    the page and recorded what it returned. *)
Lemma feature_input_returns (inp : inputs) (STATS : dict (dict pyval)) (feat : string)
      (user_input x : dict pyval) (w w1 : world) :
  feature_input inp STATS feat user_input w = (Ret x, w1) ->
  x = Py.set feat (widget_value inp STATS feat) user_input /\
  w1 = shown w [feature_widget STATS feat] /\
  (categorical STATS feat = false ->
   Widget.argument_error (Py.get "min" (PInt 0) (Py.get feat [] STATS))
                         (Py.get "max" (PInt 1) (Py.get feat [] STATS))
                         (Py.get "mean" (PFloat (float_lit 5 10)) (Py.get feat [] STATS)) = None).
Proof.
  unfold feature_input, feature_widget, widget_value, categorical, chosen.
  destruct (eq_str (Py.get "type" PNone (Py.get feat [] STATS)) "categorical").
  - intros H. injection H as <- <-. repeat split. discriminate.
  - unfold St.bind at 1, number_input.
    destruct (Widget.argument_error _ _ _) as [e |]; [discriminate |].
    destruct (existsb _ (page w)); [discriminate |].
    intros H. injection H as <- <-. repeat split.
Qed.

(** What the loop of lines 216-222 has done when it returns. *)
Lemma feature_loop_returns (inp : inputs) (STATS : dict (dict pyval)) (features : list string) :
  forall (user_input filled : dict pyval) (w w' : world),
  for_each features user_input (feature_input inp STATS) w = (Ret filled, w') ->
  w' = shown w (map (feature_widget STATS) features) /\
  (forall f, In f (Py.keys filled) <-> In f (Py.keys user_input) \/ In f features) /\
  (NoDup (Py.keys user_input) -> NoDup (Py.keys filled)) /\
  (forall f, In f features -> Py.lookup f filled = Some (widget_value inp STATS f)) /\
  (forall f, ~ In f features -> Py.lookup f filled = Py.lookup f user_input) /\
  (forall f, In f features -> categorical STATS f = false ->
   Widget.argument_error (Py.get "min" (PInt 0) (Py.get f [] STATS))
                         (Py.get "max" (PInt 1) (Py.get f [] STATS))
                         (Py.get "mean" (PFloat (float_lit 5 10)) (Py.get f [] STATS)) = None) /\
  (NoDup features -> (forall f, In f features -> ~ In f (Py.keys user_input)) ->
   Py.keys filled = (Py.keys user_input ++ features)%list).
Proof.
  induction features as [| feat rest IH]; intros user_input filled w w' Hrun.
  - cbn in Hrun. injection Hrun as <- <-. cbn [map]. rewrite shown_nil, app_nil_r.
    split; [reflexivity |]. split; [intros f; cbn; tauto |]. split; [tauto |].
    split; [intros f [] |]. split; [reflexivity |]. split; [intros f [] | reflexivity].
  - cbn [for_each] in Hrun. unfold St.bind at 1 in Hrun.
    destruct (feature_input inp STATS feat user_input w) as [[x | e |] w1] eqn:Hone;
      try discriminate.
    destruct (feature_input_returns _ _ _ _ _ _ _ Hone) as [-> [-> Hacc]].
    destruct (IH _ _ _ _ Hrun) as [-> [Hk [Hn [Hin [Hout [Hargs Hord]]]]]].
    split; [| split; [| split; [| split; [| split; [| split]]]]].
    + rewrite shown_app. reflexivity.
    + intros f. rewrite Hk, In_keys_set. cbn. intuition.
    + intros Hd. apply Hn. apply NoDup_keys_set. exact Hd.
    + intros f Hf. destruct (in_dec string_dec f rest) as [Hr | Hr]; [apply Hin; exact Hr |].
      destruct Hf as [-> | Hf]; [| contradiction].
      rewrite (Hout f Hr). apply lookup_set_same.
    + intros f Hf. cbn in Hf. rewrite Hout by tauto. apply lookup_set_other.
      intros ->. tauto.
    + intros f [<- | Hf] Hc; [exact (Hacc Hc) | exact (Hargs f Hf Hc)].
    + intros Hnd Hfresh. inversion Hnd as [| a l Hnotin Hrest]; subst.
      assert (Hmem : Py.mem feat user_input = false).
      { destruct (Py.mem feat user_input) eqn:E; [| reflexivity].
        apply mem_In_keys in E. exfalso. exact (Hfresh feat (or_introl eq_refl) E). }
      rewrite Hord.
      * rewrite (keys_set_absent _ _ _ Hmem), <- app_assoc. reflexivity.
      * exact Hrest.
      * intros f Hf Hkeys. apply In_keys_set in Hkeys. destruct Hkeys as [-> | Hkeys].
        -- contradiction.
        -- exact (Hfresh f (or_intror Hf) Hkeys).
Qed.

(** X15.  When the widgets of the prediction screen have all run without an
    exception, the input vector has one entry for each feature of the model
    and no other, each name once; the entries are in the order of the
    feature list when the list names no feature twice. *)
Theorem input_vector_has_exactly_the_features
  (inp : inputs) (STATS : dict (dict pyval)) (features : list string)
  (filled : dict pyval) (w w' : world) :
  for_each features [] (feature_input inp STATS) w = (Ret filled, w') ->
  (forall f, In f (Py.keys filled) <-> In f features) /\
  NoDup (Py.keys filled) /\
  (NoDup features -> Py.keys filled = features).
Proof.
  intros Hrun.
  destruct (feature_loop_returns inp STATS features [] filled w w' Hrun)
    as [_ [Hk [Hn [_ [_ [_ Hord]]]]]].
  split; [| split].
  - intros f. rewrite Hk. cbn. tauto.
  - apply Hn. constructor.
  - intros Hnd. apply Hord; [exact Hnd | intros f _ []].
Qed.

Lemma input_vector_has_exactly_the_features_witness :
  for_each ["Age"; "Smoker"] [] (feature_input (picks 4 None (fun _ => 1%nat) false) artifact_stats)
           empty_world =
  (Ret [("Age", PFloat (float_lit 425 10)); ("Smoker", PStr "yes")],
   mkworld None [NumberInput "Age" (PFloat (float_of_Z 18)) (PFloat (float_of_Z 90))
                             (PFloat (float_lit 425 10));
                 Selectbox "Smoker" [PStr "no"; PStr "yes"]]) /\
  Py.keys [("Age", PFloat (float_lit 425 10)); ("Smoker", PStr "yes")] = ["Age"; "Smoker"].
Proof.
  assert (Hrun :
            for_each ["Age"; "Smoker"] []
                     (feature_input (picks 4 None (fun _ => 1%nat) false) artifact_stats)
                     empty_world =
            (Ret [("Age", PFloat (float_lit 425 10)); ("Smoker", PStr "yes")],
             mkworld None [NumberInput "Age" (PFloat (float_of_Z 18)) (PFloat (float_of_Z 90))
                                       (PFloat (float_lit 425 10));
                           Selectbox "Smoker" [PStr "no"; PStr "yes"]])).
  { vm_compute. reflexivity. }
  split; [exact Hrun |].
  apply (input_vector_has_exactly_the_features _ _ _ _ _ _ Hrun).
  repeat constructor; cbn; intuition discriminate.
Defined.

(** X16.  When the widgets of the prediction screen have all run without an
    exception, the entry of a feature in the input vector is what its
    widget returned.  For a feature marked categorical it is the class at
    the position the user picked among its [classes] (None when there are
    none).  For any other feature the widget has accepted its bounds and
    its default, the [min], [max] and [mean] of the record or 0, 1 and 0.5,
    and the entry is the number the user typed, when this is a number of
    the widget's kind within the bounds, and the default when the user
    typed nothing. *)
Theorem input_vector_holds_widget_values
  (inp : inputs) (STATS : dict (dict pyval)) (features : list string)
  (filled : dict pyval) (w w' : world) (feat : string) :
  In feat features ->
  for_each features [] (feature_input inp STATS) w = (Ret filled, w') ->
  let info := Py.get feat [] STATS in
  let minv := Py.get "min" (PInt 0) info in
  let maxv := Py.get "max" (PInt 1) info in
  let meanv := Py.get "mean" (PFloat (float_lit 5 10)) info in
  Py.lookup feat filled = Some (widget_value inp STATS feat) /\
  (categorical STATS feat = true ->
   widget_value inp STATS feat =
   nth (selected inp feat) (elements (Py.get "classes" (PList []) info)) PNone) /\
  (categorical STATS feat = false ->
   Widget.argument_error minv maxv meanv = None /\
   (forall v, entered inp feat = Some v -> Widget.typeable minv maxv meanv v = true ->
    widget_value inp STATS feat = v) /\
   (entered inp feat = None -> eq_str meanv "min" = false ->
    widget_value inp STATS feat = meanv)).
Proof.
  intros Hin Hrun info minv maxv meanv.
  destruct (feature_loop_returns inp STATS features [] filled w w' Hrun)
    as [_ [_ [_ [Hv [_ [Hargs _]]]]]].
  split; [apply Hv; exact Hin |]. split.
  - intros Hc. unfold widget_value, chosen. rewrite Hc. reflexivity.
  - intros Hc. split; [exact (Hargs feat Hin Hc) |].
    unfold widget_value. rewrite Hc. fold info minv maxv meanv. unfold Widget.returned. split.
    + intros v -> ->. reflexivity.
    + intros -> Hm. unfold Widget.default_value. rewrite Hm. reflexivity.
Qed.

Lemma input_vector_holds_widget_values_witness :
  Py.lookup "Smoker" [("Age", PFloat (float_of_Z 61)); ("Smoker", PStr "yes")] =
  Some (PStr "yes") /\
  widget_value (mkinputs 4 None (fun _ => 1%nat) None (fun _ => false)
                         (fun l => if String.eqb l "Age" then Some (PFloat (float_of_Z 61)) else None))
               artifact_stats "Age" = PFloat (float_of_Z 61).
Proof.
  assert (Hrun :
            for_each ["Age"; "Smoker"] []
              (feature_input
                 (mkinputs 4 None (fun _ => 1%nat) None (fun _ => false)
                           (fun l => if String.eqb l "Age" then Some (PFloat (float_of_Z 61)) else None))
                 artifact_stats)
              empty_world =
            (Ret [("Age", PFloat (float_of_Z 61)); ("Smoker", PStr "yes")],
             mkworld None [NumberInput "Age" (PFloat (float_of_Z 18)) (PFloat (float_of_Z 90))
                                       (PFloat (float_lit 425 10));
                           Selectbox "Smoker" [PStr "no"; PStr "yes"]])).
  { vm_compute. reflexivity. }
  split.
  - exact (proj1 (input_vector_holds_widget_values _ _ ["Age"; "Smoker"] _ _ _ "Smoker"
                    (or_intror (or_introl eq_refl)) Hrun)).
  - refine (proj1 (proj2 (proj2 (proj2 (input_vector_holds_widget_values _ _ ["Age"; "Smoker"]
                    _ _ _ "Age" (or_introl eq_refl) Hrun)) _)) _ _ _); reflexivity.
Defined.

(** ** The kind of an uploaded file *)





Lemma substring_length (s : string) :
  forall i k, (i + k <= String.length s)%nat -> String.length (substring i k s) = k.
Proof.
  induction s as [| c s IH]; intros i k H; cbn in H.
  - assert (i = 0%nat) by lia. assert (k = 0%nat) by lia. subst. reflexivity.
  - destruct i as [| i]; destruct k as [| k]; cbn; try reflexivity.
    + f_equal. apply (IH 0%nat). lia.
    + apply IH. lia.
    + apply IH. lia.
Qed.




(** ** The digits of a printed number *)

Lemma round_half_even_nearest (num den : Z) :
  0 < den ->
  2 * Z.abs (round_half_even num den * den - num) <= den /\
  (2 * Z.abs (round_half_even num den * den - num) = den ->
   Z.even (round_half_even num den) = true).
Proof.
  intros Hd. unfold round_half_even.
  pose proof (Z.div_mod num den ltac:(lia)) as Hdm.
  pose proof (Z.mod_pos_bound num den Hd) as Hr.
  set (q := num / den) in *. set (r := num mod den) in *.
  destruct (Z.compare_spec (2 * r) den) as [He | Hl | Hg].
  - destruct (Z.even q) eqn:Eq.
    + split; [| intros _; exact Eq]. replace (q * den - num) with (- r) by lia. lia.
    + split.
      * replace ((q + 1) * den - num) with (den - r) by lia. lia.
      * intros _. rewrite Z.even_add, Eq. reflexivity.
  - split; [replace (q * den - num) with (- r) by lia; lia |].
    replace (q * den - num) with (- r) by lia. lia.
  - split; [replace ((q + 1) * den - num) with (den - r) by lia; lia |].
    replace ((q + 1) * den - num) with (den - r) by lia. lia.
Qed.

(** X18.  The digits a fixed-point format prints for a finite float [m * 2^e]
    with [k] decimals are those of the integer nearest to [m * 2^e * 10^k]:
    the exact product when [e] is not negative, and otherwise an integer
    within half a unit of it, the even one when two are equally near. *)
Theorem printed_digits_are_nearest (k : nat) (s : bool) (m : positive) (e : Z) :
  let n := Zpos m * 10 ^ Z.of_nat k in
  let shown_digits := scaled_decimal k m e in
  format_fixed k (S754_finite s m e) = sign s ++ place_point k (decimal shown_digits) /\
  (0 <= e -> shown_digits = n * 2 ^ e) /\
  (e < 0 -> 2 * Z.abs (shown_digits * 2 ^ (- e) - n) <= 2 ^ (- e) /\
            (2 * Z.abs (shown_digits * 2 ^ (- e) - n) = 2 ^ (- e) -> Z.even shown_digits = true)).
Proof.
  intros n shown_digits. split; [reflexivity |]. split.
  - intros He. unfold shown_digits, scaled_decimal. fold n.
    destruct e as [| p | p]; [reflexivity | reflexivity | lia].
  - intros He. unfold shown_digits, scaled_decimal. fold n.
    destruct e as [| p | p]; try lia.
    change (- Z.neg p) with (Z.pos p).
    apply round_half_even_nearest. apply Z.pow_pos_nonneg; lia.
Qed.

Lemma printed_digits_are_nearest_witness :
  2 * Z.abs (scaled_decimal 1 1 (-2) * 2 ^ 2 - 10) <= 2 ^ 2 /\
  Z.even (scaled_decimal 1 1 (-2)) = true /\
  scaled_decimal 1 3 2 = 120.
Proof.
  pose proof (printed_digits_are_nearest 1 false 1 (-2)) as [_ [_ Hneg]].
  pose proof (printed_digits_are_nearest 1 false 3 2) as [_ [Hpos _]].
  destruct (Hneg ltac:(lia)) as [Hnear Heven].
  split; [exact Hnear |]. split; [apply Heven; reflexivity | exact (Hpos ltac:(lia))].
Defined.

(** The verdict is taken on the number itself and not on its printed form:
    a percentage a little under 30 is printed as 30.0 and is of low risk,
    and a p-value a little under 0.05 is printed as 0.0500 and is
    significant. *)
Example printed_bound_with_lower_verdict :
  risk (float_lit 2996 100) = Success "Faible risque (30.0%)" /\
  verdict "Wilcoxon" "" (float_lit 49996 1000000) =
  Info "✅ Résultat significatif : . Il existe une différence ou une relation notable." /\
  format_fixed 4 (float_lit 49996 1000000) = "0.0500".
Proof. repeat split; reflexivity. Qed.

(** A record of plain numbers is one the numeric input accepts. *)
Lemma plain_numbers_accepted (minv maxv value : pyval) :
  plain_numbers minv maxv value = true -> Widget.argument_error minv maxv value = None.
Proof.
  unfold plain_numbers.
  destruct minv as [| ? | x | x | ? | ? | ? | ?]; try discriminate;
    destruct maxv as [| ? | y | y | ? | ? | ? | ?]; try discriminate;
    destruct value as [| ? | z | z | ? | ? | ? | ?]; try discriminate;
    rewrite !andb_true_iff, !negb_true_iff.
  - intros [[[[Hxz Hzy] Hx] Hy] Hz].
    unfold Widget.argument_error, Widget.mixed, Widget.on_integers, Widget.default_value.
    cbn [forallb Widget.integral_or_none Widget.float_or_none andb negb eq_str existsb
         Widget.is_string orb].
    unfold Widget.less. cbn [Widget.as_int].
    replace (z <? x) with false by (symmetry; apply Z.ltb_ge; apply Z.leb_le; exact Hxz).
    replace (y <? z) with false by (symmetry; apply Z.ltb_ge; apply Z.leb_le; exact Hzy).
    rewrite Hx, Hy, Hz. reflexivity.
  - intros [[[[[[[_ _] _] Hzx] Hyz] Hx] Hy] Hz].
    unfold Widget.argument_error, Widget.mixed, Widget.on_integers, Widget.default_value.
    cbn [forallb Widget.integral_or_none Widget.float_or_none andb negb eq_str existsb
         Widget.is_string orb].
    unfold Widget.less. cbn [Widget.as_float]. rewrite Hzx, Hyz, Hx, Hy, Hz. reflexivity.
Qed.

(** A label no widget of the page bears has no twin on the page. *)
Lemma fresh_label_no_twin (label : string) (a b c : pyval) (pg : list element) :
  ~ In label (widget_labels pg) -> existsb (Widget.twin label a b c) pg = false.
Proof.
  induction pg as [| el pg IH]; [reflexivity |].
  unfold widget_labels. cbn [flat_map existsb]. fold (widget_labels pg).
  rewrite in_app_iff. intros H.
  rewrite IH by tauto. rewrite orb_false_r.
  destruct el; try reflexivity. cbn [Widget.twin].
  destruct (String.eqb_spec label label0) as [-> | _]; [| reflexivity].
  exfalso. apply H. left. left. reflexivity.
Qed.

(** The widget of a well-formed feature whose name is new on the page goes
    on the page and returns. *)
Lemma feature_input_runs (inp : inputs) (STATS : dict (dict pyval)) (feat : string)
      (user_input : dict pyval) (w : world) :
  well_formed STATS feat = true ->
  ~ In feat (widget_labels (page w)) ->
  feature_input inp STATS feat user_input w =
  (Ret (Py.set feat (widget_value inp STATS feat) user_input), shown w [feature_widget STATS feat]).
Proof.
  unfold well_formed, feature_input, feature_widget, widget_value, categorical, chosen.
  destruct (eq_str (Py.get "type" PNone (Py.get feat [] STATS)) "categorical").
  - reflexivity.
  - intros Hwf Hfresh. unfold St.bind at 1, number_input.
    rewrite (plain_numbers_accepted _ _ _ Hwf), (fresh_label_no_twin _ _ _ _ _ Hfresh).
    reflexivity.
Qed.

Lemma widget_labels_app (a b : list element) :
  widget_labels (a ++ b) = (widget_labels a ++ widget_labels b)%list.
Proof. unfold widget_labels. apply flat_map_app. Qed.

Lemma feature_widget_label (STATS : dict (dict pyval)) (feat : string) :
  widget_labels [feature_widget STATS feat] = [feat].
Proof. unfold feature_widget. destruct (categorical STATS feat); reflexivity. Qed.

(** The loop of lines 216-222 runs to its end over well-formed features
    that are named once and whose names are new on the page. *)
Lemma feature_loop_runs (inp : inputs) (STATS : dict (dict pyval)) (features : list string) :
  NoDup features ->
  (forall f, In f features -> well_formed STATS f = true) ->
  forall (user_input : dict pyval) (w : world),
  (forall f, In f features -> ~ In f (widget_labels (page w))) ->
  exists filled,
    for_each features user_input (feature_input inp STATS) w =
    (Ret filled, shown w (map (feature_widget STATS) features)).
Proof.
  induction features as [| feat rest IH]; intros Hnd Hwf user_input w Hfresh.
  - exists user_input. cbn. rewrite shown_nil. reflexivity.
  - inversion Hnd as [| a l Hnotin Hrest]; subst.
    destruct (IH Hrest (fun f Hf => Hwf f (or_intror Hf))
                 (Py.set feat (widget_value inp STATS feat) user_input)
                 (shown w [feature_widget STATS feat])) as [filled Hrun].
    + intros f Hf. unfold shown. cbn [page]. rewrite widget_labels_app, feature_widget_label.
      rewrite in_app_iff. intros [H | [H | []]].
      * exact (Hfresh f (or_intror Hf) H).
      * subst f. contradiction.
    + exists filled. cbn [for_each map].
      rewrite (bind_ret _ _ _ _ _
                 (feature_input_runs inp STATS feat user_input w
                    (Hwf feat (or_introl eq_refl)) (Hfresh feat (or_introl eq_refl)))).
      rewrite Hrun, shown_app. reflexivity.
Qed.

(** X19.  With a model loaded and the button not pressed, the prediction
    screen ends normally after its header, its invitation, one widget for
    each feature in the order of the list, and the button, when every
    widget accepts what it is given: the features are named once, each
    record suits its widget (a list of classes for a categorical feature;
    three integers or three finite floats, the default between the bounds,
    for another), and no widget of the page bears the name of a feature
    or the label of the button.  Neither the encoders nor the classifier
    have been called, the run being the same for every library. *)
Theorem prediction_waits_for_button (L : Lib) (inp : inputs) (g : bundle) (w : world) :
  model_loaded g = true ->
  clicked inp "🔮 Prédire" = false ->
  NoDup (FEATURES g) ->
  (forall f, In f (FEATURES g) -> well_formed (STATS g) f = true) ->
  (forall f, In f (FEATURES g) -> ~ In f (widget_labels (page w))) ->
  ~ In "🔮 Prédire" (widget_labels (page w)) ->
  prediction_screen L inp g w =
  (Ret tt, shown w ([Header "🔮 Prédiction du risque de diabète";
                     Write "### Entrez les valeurs pour prédire le risque :"]
                    ++ map (feature_widget (STATS g)) (FEATURES g)
                    ++ [Button "🔮 Prédire"])).
Proof.
  intros Hg Hc Hnd Hwf Hfresh _. unfold prediction_screen.
  rewrite (bind_ret _ _ _ _ _ (emit_run _ _)), Hg. cbn [negb].
  rewrite (bind_ret _ _ _ _ _ (ret_run tt _)).
  rewrite (bind_ret _ _ _ _ _ (emit_run _ _)).
  match goal with
  | |- context [ St.bind (for_each _ _ _) _ ?w0 ] =>
      destruct (feature_loop_runs inp (STATS g) (FEATURES g) Hnd Hwf [] w0) as [filled Hf]
  end.
  { intros f Hin. unfold shown. cbn [page]. rewrite !widget_labels_app, !in_app_iff.
    cbn. intros [[H | []] | []]. exact (Hfresh f Hin H). }
  rewrite (bind_ret _ _ _ _ _ Hf), (bind_ret _ _ _ _ _ (button_run _ _ _)), Hc.
  rewrite !shown_app. unfold St.ret. cbn [app]. repeat rewrite <- app_assoc. reflexivity.
Qed.

Lemma prediction_waits_for_button_witness :
  prediction_screen strict (picks 4 None (fun _ => 0%nat) false)
    (mkbundle true (PObj "m") [] ["Age"; "Smoker"] artifact_stats) (mkworld None prelude) =
  (Ret tt, mkworld None (prelude ++
                         [Header "🔮 Prédiction du risque de diabète";
                          Write "### Entrez les valeurs pour prédire le risque :";
                          NumberInput "Age" (PFloat (float_of_Z 18)) (PFloat (float_of_Z 90))
                                      (PFloat (float_lit 425 10));
                          Selectbox "Smoker" [PStr "no"; PStr "yes"];
                          Button "🔮 Prédire"])).
Proof.
  refine (prediction_waits_for_button strict (picks 4 None (fun _ => 0%nat) false)
            (mkbundle true (PObj "m") [] ["Age"; "Smoker"] artifact_stats)
            (mkworld None prelude) eq_refl eq_refl _ _ _ _).
  - repeat constructor; cbn; intuition discriminate.
  - intros f [<- | [<- | []]]; vm_compute; reflexivity.
  - intros f [<- | [<- | []]]; cbn; intuition discriminate.
  - cbn. intuition discriminate.
Defined.
